(** * Coding-CLI-Agent: the tool library (tools.py) and the agent loop (main.py)

    A shallow embedding of the two source files and the properties of the
    specification that concern them.

    Modelling conventions.
    - A Python [str] is a Rocq [string], one [ascii] per character; the
      character functions ([lower], [strip], [repr], JSON escaping) follow
      CPython on the code points below 256.
    - The file system is a tree of directories and text files rooted at [/],
      with a current directory.  A file holds the text its bytes decode to;
      a file can be unreadable (its [open] for reading fails).  There are no
      symbolic links and no other permissions; text files are opened the
      POSIX way ([os.linesep] is a line feed).
    - A Python exception is a value of [exn]; code that can raise returns a
      [result]; [try ... except Exception] is a match on it.
    - The model provider and the shell are outside the program: a run of the
      loop is given the replies of the provider as a script, and the shell
      is a function taken as a section variable.
    - [print] is not modelled. *)

From Stdlib Require Import String Ascii List Bool Arith Lia ZArith.
From Stdlib Require Import DecimalString Sorting.Mergesort Sorting.Sorted Permutation Orders.
Import ListNotations.
Set Warnings "-register-all".
Open Scope string_scope.
Open Scope list_scope.
Open Scope nat_scope.

(** ** Python strings *)

Module PyStr.

Definition ord (c : ascii) : nat := nat_of_ascii c.
Definition chr (n : nat) : ascii := ascii_of_nat n.

Definition dquote : ascii := chr 34.
Definition squote : ascii := chr 39.
Definition backslash : ascii := chr 92.
Definition LF : ascii := chr 10.
Definition CR : ascii := chr 13.

Definition str1 (c : ascii) : string := String c EmptyString.

Definition is_empty (s : string) : bool :=
  match s with EmptyString => true | String _ _ => false end.

(** [str.lower()]: A-Z, and the capital letters of Latin-1. *)
Definition lower_char (c : ascii) : ascii :=
  let n := ord c in
  if ((65 <=? n) && (n <=? 90))
     || ((192 <=? n) && (n <=? 222) && negb (n =? 215))
  then chr (n + 32) else c.

Fixpoint lower (s : string) : string :=
  match s with
  | EmptyString => EmptyString
  | String c r => String (lower_char c) (lower r)
  end.

(** [s.startswith(p)] *)
Definition startswith (p s : string) : bool := String.prefix p s.

(** [sub in s] *)
Fixpoint contains (sub s : string) : bool :=
  if String.prefix sub s then true
  else match s with
       | EmptyString => false
       | String _ r => contains sub r
       end.

(** [s.endswith(suf)] *)
Fixpoint endswith (suf s : string) : bool :=
  if String.eqb s suf then true
  else match s with
       | EmptyString => false
       | String _ r => endswith suf r
       end.

(** [sep.join(l)] *)
Definition join (sep : string) (l : list string) : string := String.concat sep l.

(** [s.split(sep, maxsplit)] for a non-empty [sep]: [None] is no limit.
    [skip] counts the characters of a delimiter still to be passed over,
    [piece] is the field being read. *)
Fixpoint split_go (sep : string) (limit : option nat) (skip : nat)
         (piece : string) (s : string) : list string :=
  match s with
  | EmptyString => [piece]
  | String c r =>
      match skip with
      | S k => split_go sep limit k piece r
      | O =>
          let cut := match limit with Some O => false | _ => String.prefix sep s end in
          if cut
          then piece :: split_go sep
                          (match limit with Some (S m) => Some m | l => l end)
                          (String.length sep - 1) EmptyString r
          else split_go sep limit O (piece ++ str1 c) r
      end
  end.

Definition split (sep : string) (limit : option nat) (s : string) : list string :=
  split_go sep limit O EmptyString s.

(** [str.isspace] on one character. *)
Definition is_space (c : ascii) : bool :=
  let n := ord c in
  ((9 <=? n) && (n <=? 13)) || ((28 <=? n) && (n <=? 32))
  || (n =? 133) || (n =? 160).

Fixpoint lstrip (s : string) : string :=
  match s with
  | EmptyString => EmptyString
  | String c r => if is_space c then lstrip r else s
  end.

Fixpoint rstrip (s : string) : string :=
  match s with
  | EmptyString => EmptyString
  | String c r =>
      let r' := rstrip r in
      if is_space c && is_empty r' then EmptyString else String c r'
  end.

(** [s.strip()] *)
Definition strip (s : string) : string := rstrip (lstrip s).

(** [str(n)] for a natural number and for an integer. *)
Definition str_of_nat (n : nat) : string :=
  NilEmpty.string_of_uint (Nat.to_uint n).

Definition str_of_Z (z : Z) : string :=
  NilZero.string_of_int (Z.to_int z).

Definition hex_digit (n : nat) : ascii :=
  if n <? 10 then chr (48 + n) else chr (87 + n).

Definition hex2 (n : nat) : string :=
  String (hex_digit (n / 16)) (str1 (hex_digit (n mod 16))).

(** [repr(s)] of a [str]. *)
Definition printable (n : nat) : bool :=
  ((32 <=? n) && (n <=? 126)) || ((161 <=? n) && negb (n =? 173)).

Definition repr_char (quote : ascii) (c : ascii) : string :=
  let n := ord c in
  if Ascii.eqb c backslash then String backslash (str1 backslash)
  else if Ascii.eqb c quote then String backslash (str1 quote)
  else if n =? 9 then String backslash "t"
  else if n =? 10 then String backslash "n"
  else if n =? 13 then String backslash "r"
  else if printable n then str1 c
  else String backslash ("x" ++ hex2 n).

Fixpoint repr_body (quote : ascii) (s : string) : string :=
  match s with
  | EmptyString => EmptyString
  | String c r => repr_char quote c ++ repr_body quote r
  end.

Definition repr (s : string) : string :=
  let quote :=
    if contains (str1 squote) s && negb (contains (str1 dquote) s)
    then dquote else squote in
  str1 quote ++ repr_body quote s ++ str1 quote.

(** [json.dumps] of a [str] ([ensure_ascii] is on). *)
Definition json_char (c : ascii) : string :=
  let n := ord c in
  if Ascii.eqb c backslash then String backslash (str1 backslash)
  else if Ascii.eqb c dquote then String backslash (str1 dquote)
  else if n =? 8 then String backslash "b"
  else if n =? 12 then String backslash "f"
  else if n =? 10 then String backslash "n"
  else if n =? 13 then String backslash "r"
  else if n =? 9 then String backslash "t"
  else if (32 <=? n) && (n <=? 126) then str1 c
  else String backslash ("u00" ++ hex2 n).

Fixpoint json_body (s : string) : string :=
  match s with
  | EmptyString => EmptyString
  | String c r => json_char c ++ json_body r
  end.

Definition json_str (s : string) : string :=
  str1 dquote ++ json_body s ++ str1 dquote.

(** The text mode of [open]: reading turns CR LF and a lone CR into LF. *)
Fixpoint universal_newlines (s : string) : string :=
  match s with
  | EmptyString => EmptyString
  | String c r =>
      if Ascii.eqb c CR
      then String LF
             (match r with
              | String c' r' =>
                  if Ascii.eqb c' LF then universal_newlines r' else universal_newlines r
              | EmptyString => EmptyString
              end)
      else String c (universal_newlines r)
  end.

(** The lines a text file object yields: each keeps its line feed. *)
Fixpoint lines_go (cur : string) (s : string) : list string :=
  match s with
  | EmptyString => if is_empty cur then [] else [cur]
  | String c r =>
      if Ascii.eqb c LF then (cur ++ str1 c)%string :: lines_go EmptyString r
      else lines_go (cur ++ str1 c) r
  end.

Definition lines (s : string) : list string := lines_go EmptyString s.

(** The number of bytes of the UTF-8 encoding. *)
Fixpoint utf8_len (s : string) : nat :=
  match s with
  | EmptyString => 0
  | String c r => (if ord c <? 128 then 1 else 2) + utf8_len r
  end.

End PyStr.

(** ** Python exceptions *)

Module Py.

Inductive exn_class : Type :=
| FileNotFoundError | NotADirectoryError | IsADirectoryError
| FileExistsError | PermissionError
| TypeError | KeyError | AttributeError
| TimeoutExpired | OtherException.

Record exn : Type := mk_exn { exn_cls : exn_class; exn_msg : string }.

(** [str(e)] *)
Definition str_exn (e : exn) : string := exn_msg e.

Inductive result (A : Type) : Type :=
| Ok (a : A)
| Raise (e : exn).
Arguments Ok {A} a.
Arguments Raise {A} e.

Definition is_timeout (e : exn) : bool :=
  match exn_cls e with TimeoutExpired => true | _ => false end.

End Py.

(** ** The file system, [os] and [pathlib] *)

Module Os.
Import PyStr Py.

Inductive node : Type :=
| File (readable : bool) (data : string)
| Dir (entries : list (string * node)).

(** [spawned] records the commands handed to the shell, oldest first. *)
Record World : Type := mk_world {
  root : node;
  cwd : list string;
  spawned : list string
}.

Definition with_root (w : World) (r : node) : World :=
  {| root := r; cwd := cwd w; spawned := spawned w |}.

Inductive errno : Type := ENOENT | ENOTDIR | EISDIR | EEXIST | EACCES.

Inductive os_result (A : Type) : Type :=
| Done (a : A)
| Fail (e : errno).
Arguments Done {A} a.
Arguments Fail {A} e.

(** A [PurePosixPath]: whether it starts at the root, and its parts. *)
Record Path : Type := mk_path { anchored : bool; parts : list string }.

(** [Path(s)]: empty parts and [.] are dropped, [..] is kept. *)
Definition kept (part : string) : bool :=
  negb (is_empty part) && negb (String.eqb part ".").

Definition mkPath (s : string) : Path :=
  {| anchored := startswith "/" s; parts := filter kept (split "/" None s) |}.

(** [str(path)] *)
Definition path_str (p : Path) : string :=
  match anchored p, parts p with
  | false, [] => "."
  | false, ps => join "/" ps
  | true, ps => "/" ++ join "/" ps
  end.

(** [path.parent]: a path without parts is its own parent. *)
Definition parent (p : Path) : Path :=
  {| anchored := anchored p; parts := removelast (parts p) |}.

(** [path.name] *)
Definition name (ps : list string) : string := last ps EmptyString.

Definition os_error (e : errno) (p : Path) : exn :=
  let at_path := (": " ++ repr (path_str p))%string in
  match e with
  | ENOENT => mk_exn FileNotFoundError ("[Errno 2] No such file or directory" ++ at_path)
  | EACCES => mk_exn PermissionError ("[Errno 13] Permission denied" ++ at_path)
  | EEXIST => mk_exn FileExistsError ("[Errno 17] File exists" ++ at_path)
  | ENOTDIR => mk_exn NotADirectoryError ("[Errno 20] Not a directory" ++ at_path)
  | EISDIR => mk_exn IsADirectoryError ("[Errno 21] Is a directory" ++ at_path)
  end.

(** Directory entries: an association list, in the order [scandir] gives. *)
Fixpoint assoc {A : Type} (k : string) (es : list (string * A)) : option A :=
  match es with
  | [] => None
  | (k', x) :: r => if String.eqb k' k then Some x else assoc k r
  end.

Fixpoint upsert {A : Type} (k : string) (x : A) (es : list (string * A))
  : list (string * A) :=
  match es with
  | [] => [(k, x)]
  | (k', y) :: r => if String.eqb k' k then (k, x) :: r else (k', y) :: upsert k x r
  end.

(** The node at a location: a list of names from the root. *)
Fixpoint get (n : node) (loc : list string) : option node :=
  match loc with
  | [] => Some n
  | k :: rest =>
      match n with
      | Dir es => match assoc k es with
                  | Some c => get c rest
                  | None => None
                  end
      | File _ _ => None
      end
  end.

(** Store [x] at a location whose parent is a directory. *)
Fixpoint put (n : node) (loc : list string) (x : node) : option node :=
  match loc with
  | [] => Some x
  | k :: rest =>
      match n with
      | Dir es =>
          match rest with
          | [] => Some (Dir (upsert k x es))
          | _ :: _ =>
              match assoc k es with
              | Some c => match put c rest x with
                          | Some c' => Some (Dir (upsert k c' es))
                          | None => None
                          end
              | None => None
              end
          end
      | File _ _ => None
      end
  end.

(** Path resolution: every part is looked up in a directory. *)
Definition enter (cur : list string) (part : string) : list string :=
  if String.eqb part ".." then removelast cur else cur ++ [part].

Fixpoint walk (r : node) (cur : list string) (ps : list string)
  : os_result (list string) :=
  match ps with
  | [] => Done cur
  | p :: rest =>
      match get r cur with
      | Some (Dir _) => walk r (enter cur p) rest
      | Some (File _ _) => Fail ENOTDIR
      | None => Fail ENOENT
      end
  end.

Definition resolve (w : World) (p : Path) : os_result (list string) :=
  walk (root w) (if anchored p then [] else cwd w) (parts p).

(** [os.stat] *)
Definition stat (w : World) (p : Path) : os_result node :=
  match resolve w p with
  | Fail e => Fail e
  | Done loc => match get (root w) loc with
                | Some n => Done n
                | None => Fail ENOENT
                end
  end.

(** [path.exists()], [path.is_dir()], [path.is_file()] *)
Definition exists_ (w : World) (p : Path) : bool :=
  match stat w p with Done _ => true | Fail _ => false end.

Definition is_dir (w : World) (p : Path) : bool :=
  match stat w p with Done (Dir _) => true | _ => false end.

Definition is_file (w : World) (p : Path) : bool :=
  match stat w p with Done (File _ _) => true | _ => false end.

Definition node_is_dir (n : node) : bool :=
  match n with Dir _ => true | File _ _ => false end.

(** [st_size] of a node that is a file. *)
Definition st_size (n : node) : nat :=
  match n with File _ d => utf8_len d | Dir _ => 0 end.

(** [os.mkdir] *)
Definition os_mkdir (w : World) (p : Path) : os_result World :=
  match resolve w p with
  | Fail e => Fail e
  | Done loc =>
      match get (root w) loc with
      | Some _ => Fail EEXIST
      | None => match put (root w) loc (Dir []) with
                | Some r => Done (with_root w r)
                | None => Fail ENOENT
                end
      end
  end.

(** [path.mkdir(parents=False, exist_ok=...)] *)
Definition mkdir_flat (exist_ok : bool) (p : Path) (w : World) : option exn * World :=
  match os_mkdir w p with
  | Done w' => (None, w')
  | Fail ENOENT => (Some (os_error ENOENT p), w)
  | Fail e => if exist_ok && is_dir w p then (None, w) else (Some (os_error e p), w)
  end.

(** [path.mkdir(parents=True, exist_ok=...)], by recursion on the parts,
    last part first. *)
Fixpoint mkdir_parents (exist_ok : bool) (anch : bool) (rparts : list string)
         (w : World) : option exn * World :=
  let self := {| anchored := anch; parts := rev rparts |} in
  match os_mkdir w self with
  | Done w' => (None, w')
  | Fail ENOENT =>
      match rparts with
      | [] => (Some (os_error ENOENT self), w)
      | _ :: rparent =>
          match mkdir_parents true anch rparent w with
          | (Some e, w1) => (Some e, w1)
          | (None, w1) => mkdir_flat exist_ok self w1
          end
      end
  | Fail e => if exist_ok && is_dir w self then (None, w) else (Some (os_error e self), w)
  end.

Definition mkdir (parents exist_ok : bool) (p : Path) (w : World) : option exn * World :=
  if parents then mkdir_parents exist_ok (anchored p) (rev (parts p)) w
  else mkdir_flat exist_ok p w.

(** [open(path, 'r')]: the text stored in the file. *)
Definition open_read (w : World) (p : Path) : os_result string :=
  match stat w p with
  | Fail e => Fail e
  | Done (Dir _) => Fail EISDIR
  | Done (File false _) => Fail EACCES
  | Done (File true d) => Done d
  end.

Definition node_read (n : node) : os_result string :=
  match n with
  | Dir _ => Fail EISDIR
  | File false _ => Fail EACCES
  | File true d => Done d
  end.

(** [open(path, 'w')], [f.write(content)] and the close. *)
Definition open_write (w : World) (p : Path) (content : string) : os_result World :=
  match resolve w p with
  | Fail e => Fail e
  | Done loc =>
      match get (root w) loc with
      | Some (Dir _) => Fail EISDIR
      | found =>
          let r := match found with Some (File r _) => r | _ => true end in
          match put (root w) loc (File r content) with
          | Some t => Done (with_root w t)
          | None => Fail ENOENT
          end
      end
  end.

(** [path.rglob('*')] from a node: every entry below it with its parts
    relative to the start and the node it names; the entries of a
    directory come first, then those of its subdirectories, in turn. *)
Fixpoint rglob (rel : list string) (n : node) : list (list string * node) :=
  match n with
  | File _ _ => []
  | Dir es =>
      map (fun e => (rel ++ [fst e], snd e)) es
      ++ flat_map (fun e => rglob (rel ++ [fst e]) (snd e)) es
  end.

End Os.

(** ** tools.py *)

(** [sorted(path.iterdir())]: the children of one directory are compared by
    their names, character by character. *)
Module NameOrder <: TotalLeBool.
Definition t : Type := (string * Os.node)%type.
Definition leb (x y : t) : bool := String.leb (fst x) (fst y).
Definition leb_total (x y : t) : leb x y = true \/ leb y x = true :=
  String.leb_total (fst x) (fst y).
End NameOrder.

Module EntrySort := Sort NameOrder.

Module Tools.
Import PyStr Py Os.
#[local] Open Scope string_scope.

(** [read_file] *)
Definition read_file_try (file_path : string) (w : World) : result string :=
  let path := mkPath file_path in
  if negb (exists_ w path)
  then Ok ("Error: File '" ++ file_path ++ "' does not exist")
  else if negb (is_file w path)
  then Ok ("Error: '" ++ file_path ++ "' is not a file")
  else match open_read w path with
       | Fail e => Raise (os_error e path)
       | Done d =>
           let content := universal_newlines d in
           Ok (if is_empty content then "(Empty file)" else content)
       end.

Definition read_file (file_path : string) (w : World) : string :=
  match read_file_try file_path w with
  | Ok s => s
  | Raise e => "Error reading file: " ++ str_exn e
  end.

(** [write_file] *)
Definition write_file_try (file_path content : string) (w : World)
  : result string * World :=
  let path := mkPath file_path in
  match mkdir true true (parent path) w with
  | (Some e, w1) => (Raise e, w1)
  | (None, w1) =>
      match open_write w1 path content with
      | Fail e => (Raise (os_error e path), w1)
      | Done w2 =>
          (Ok ("Successfully wrote " ++ str_of_nat (String.length content)
               ++ " characters to '" ++ file_path ++ "'"), w2)
      end
  end.

Definition write_file (file_path content : string) (w : World) : string * World :=
  match write_file_try file_path content w with
  | (Ok s, w') => (s, w')
  | (Raise e, w') => ("Error writing file: " ++ str_exn e, w')
  end.

(** [create_directory] *)
Definition create_directory_try (directory_path : string) (w : World)
  : result string * World :=
  let path := mkPath directory_path in
  if exists_ w path
  then if is_dir w path
       then (Ok ("Directory '" ++ directory_path ++ "' already exists"), w)
       else (Ok ("Error: '" ++ directory_path ++ "' exists but is not a directory"), w)
  else match mkdir true true path w with
       | (Some e, w1) => (Raise e, w1)
       | (None, w1) => (Ok ("Successfully created directory '" ++ directory_path ++ "'"), w1)
       end.

Definition create_directory (directory_path : string) (w : World) : string * World :=
  match create_directory_try directory_path w with
  | (Ok s, w') => (s, w')
  | (Raise e, w') => ("Error creating directory: " ++ str_exn e, w')
  end.

(** [list_files] *)
Definition list_item (item : string * node) : string :=
  if node_is_dir (snd item)
  then "[DIR]  " ++ fst item ++ "/"
  else "[FILE] " ++ fst item ++ " (" ++ str_of_nat (st_size (snd item)) ++ " bytes)".

Definition iterdir (w : World) (p : Path) : os_result (list (string * node)) :=
  match stat w p with
  | Fail e => Fail e
  | Done (Dir es) => Done es
  | Done (File _ _) => Fail ENOTDIR
  end.

Definition list_files_try (directory_path : string) (w : World) : result string :=
  let path := mkPath directory_path in
  if negb (exists_ w path)
  then Ok ("Error: Directory '" ++ directory_path ++ "' does not exist")
  else if negb (is_dir w path)
  then Ok ("Error: '" ++ directory_path ++ "' is not a directory")
  else match iterdir w path with
       | Fail e => Raise (os_error e path)
       | Done es =>
           let items := map list_item (EntrySort.sort es) in
           match items with
           | [] => Ok ("Directory '" ++ directory_path ++ "' is empty")
           | _ :: _ => Ok (join (str1 LF) items)
           end
       end.

Definition list_files (directory_path : string) (w : World) : string :=
  match list_files_try directory_path w with
  | Ok s => s
  | Raise e => "Error listing directory: " ++ str_exn e
  end.

(** [execute_command] *)
Definition dangerous_keywords : list string :=
  ["rm -rf /"; "dd"; "mkfs"; "format"; ":(){:|:&};:"].

Definition blocked (command : string) : bool :=
  existsb (fun keyword => contains keyword (lower command)) dangerous_keywords.

(** What [subprocess.run] hands back. *)
Record CompletedProcess : Type := mk_completed {
  stdout : string;
  stderr : string;
  returncode : Z
}.

Definition command_output (res : CompletedProcess) : string :=
  let output :=
    List.app (if is_empty (stdout res) then [] else ["STDOUT:" ++ str1 LF ++ stdout res])
      (List.app
         (if is_empty (stderr res) then [] else ["STDERR:" ++ str1 LF ++ stderr res])
         (if Z.eqb (returncode res) 0 then []
          else ["Exit code: " ++ str_of_Z (returncode res)])) in
  match output with
  | [] => "(No output)"
  | _ :: _ => join (str1 LF) output
  end.

Definition record_spawn (command : string) (w : World) : World :=
  {| root := root w; cwd := cwd w; spawned := (spawned w ++ [command])%list |}.

Section Shell.
(** [subprocess.run(command, shell=True, capture_output=True, text=True,
    timeout=30)]: the shell, given the command and the world. *)
Variable subprocess_run : string -> World -> result CompletedProcess * World.

Definition execute_command (command : string) (w : World) : string * World :=
  if blocked command
  then ("Error: Command blocked for safety reasons", w)
  else
    match subprocess_run command (record_spawn command w) with
    | (Ok res, w') => (command_output res, w')
    | (Raise e, w') =>
        if is_timeout e
        then ("Error: Command timed out after 30 seconds", w')
        else ("Error executing command: " ++ str_exn e, w')
    end.
End Shell.

(** [search_code] *)
Definition match_line (rel : list string) (line_num : nat) (line : string) : string :=
  join "/" rel ++ ":" ++ str_of_nat line_num ++ ": " ++ strip line.

(** The [for line_num, line in enumerate(f, 1)] loop. *)
Fixpoint scan_lines (pattern : string) (rel : list string) (line_num : nat)
         (ls : list string) : list string :=
  match ls with
  | [] => []
  | line :: rest =>
      List.app
        (if contains (lower pattern) (lower line)
         then [match_line rel line_num line] else [])
        (scan_lines pattern rel (S line_num) rest)
  end.

(** One turn of the [for file_path in path.rglob('*')] loop, on the pair
    [(matches, search_count)]. *)
Definition scan_entry (pattern file_extension : string)
           (st : list string * nat) (entry : list string * node)
  : list string * nat :=
  let (rel, n) := entry in
  if node_is_dir n || startswith "." (name rel) then st
  else if negb (is_empty file_extension) && negb (endswith file_extension (name rel))
  then st
  else match node_read n with
       | Fail _ => st
       | Done d =>
           (List.app (fst st) (scan_lines pattern rel 1 (lines (universal_newlines d))),
            S (snd st))
       end.

Definition search_report (pattern : string) (st : list string * nat) : string :=
  let (matches, search_count) := st in
  match matches with
  | [] => "No matches found for '" ++ pattern ++ "' in "
          ++ str_of_nat search_count ++ " files"
  | _ :: _ =>
      if (50 <? List.length matches)%nat
      then join (str1 LF) (firstn 50 matches)
           ++ str1 LF ++ "... (" ++ str_of_nat (List.length matches - 50)
           ++ " more matches)"
      else join (str1 LF) matches
  end.

(** The entries [path.rglob('*')] yields: none when [path] is not a
    directory. *)
Definition rglob_all (w : World) (p : Path) : list (list string * node) :=
  match stat w p with
  | Done n => rglob [] n
  | Fail _ => []
  end.

Definition search_code_try (pattern directory_path file_extension : string)
           (w : World) : result string :=
  let path := mkPath directory_path in
  if negb (exists_ w path)
  then Ok ("Error: Directory '" ++ directory_path ++ "' does not exist")
  else Ok (search_report pattern
             (fold_left (scan_entry pattern file_extension) (rglob_all w path) ([], 0))).

Definition search_code (pattern directory_path file_extension : string)
           (w : World) : string :=
  match search_code_try pattern directory_path file_extension w with
  | Ok s => s
  | Raise e => "Error searching code: " ++ str_exn e
  end.

End Tools.

(** ** main.py *)

Module Main.
Import PyStr Py Os Tools.
#[local] Open Scope string_scope.

Inductive StepType : Type := START | PLAN | TOOL | OUTPUT.

(** [AgentResponse]: the schema every reply of the provider is parsed to. *)
Record AgentResponse : Type := mk_response {
  step : StepType;
  content : option string;
  tool : option string;
  input : option string
}.

(** One message of the transcript: [{"role": ..., "content": ...}]. *)
Record Message : Type := mk_message {
  role : string;
  body : option string
}.

(** What [client.beta.chat.completions.parse] does on one call: it raises,
    or it gives a response whose first choice carries [parsed] and
    [content]. *)
Inductive llm_outcome : Type :=
| LLMError (e : exn)
| LLMReply (parsed : option AgentResponse) (raw : option string).

(** [json.dumps] of a dict from [str] to [str] or [None]. *)
Definition json_value (v : option string) : string :=
  match v with
  | Some s => json_str s
  | None => "null"
  end.

Definition json_dumps (d : list (string * option string)) : string :=
  "{" ++ join ", " (map (fun kv => json_str (fst kv) ++ ": " ++ json_value (snd kv)) d)
  ++ "}".

(** The dict of an OBSERVE message. *)
Definition observe_dict (tool_to_call : option string) (tool_input tool_response : string)
  : list (string * option string) :=
  [("step", Some "OBSERVE"); ("tool", tool_to_call);
   ("input", Some tool_input); ("output", Some tool_response)].

Definition observe_message (tool_to_call : option string)
           (tool_input tool_response : string) : Message :=
  {| role := "user";
     body := Some (json_dumps (observe_dict tool_to_call tool_input tool_response)) |}.

(** An entry of the registry: a callable on one string, which can raise. *)
Definition tool_fn : Type := string -> World -> result string * World.

Definition returns (r : string * World) : result string * World :=
  (Ok (fst r), snd r).

(** The state of one run: the transcript, the world, and two records kept
    for the properties: the transcripts passed to the provider and the
    calls of registry entries, oldest first. *)
Record State : Type := mk_state {
  message_history : list Message;
  world : World;
  llm_calls : list (list Message);
  tool_calls : list (string * string)
}.

Inductive control : Type :=
| Continue (st : State)
| Return (v : option string) (st : State)
| Throw (e : exn) (st : State).

Inductive outcome : Type :=
| Returned (v : option string)
| Raised (e : exn)
| AwaitingModel.

Section Agent.
Variable subprocess_run : string -> World -> result CompletedProcess * World.
Variable SYSTEM_PROMPT : string.

(** [available_tools] *)
Definition write_file_entry : tool_fn := fun args w =>
  match split "|||" (Some 1) args with
  | [file_path; content] => returns (write_file file_path content w)
  | _ => (Raise (mk_exn TypeError
                   "write_file() missing 1 required positional argument: 'content'"), w)
  end.

Definition search_code_entry : tool_fn := fun args w =>
  match split "|||" None args with
  | [] => (Raise (mk_exn TypeError
                    "search_code() missing 1 required positional argument: 'pattern'"), w)
  | [pattern] => (Ok (search_code pattern "." EmptyString w), w)
  | [pattern; directory_path] =>
      (Ok (search_code pattern directory_path EmptyString w), w)
  | [pattern; directory_path; file_extension] =>
      (Ok (search_code pattern directory_path file_extension w), w)
  | fields =>
      (Raise (mk_exn TypeError
                ("search_code() takes from 1 to 3 positional arguments but "
                 ++ str_of_nat (List.length fields) ++ " were given")), w)
  end.

Definition available_tools : list (string * tool_fn) :=
  [("read_file", fun args w => (Ok (read_file args w), w));
   ("write_file", write_file_entry);
   ("create_directory", fun args w => returns (create_directory args w));
   ("list_files", fun args w => (Ok (list_files args w), w));
   ("execute_command", fun args w => returns (execute_command subprocess_run args w));
   ("search_code", search_code_entry)].

(** [available_tools[tool_to_call]] *)
Definition lookup_tool (tool_to_call : option string) : result tool_fn :=
  match tool_to_call with
  | None => Raise (mk_exn KeyError "None")
  | Some k => match assoc k available_tools with
              | Some f => Ok f
              | None => Raise (mk_exn KeyError (repr k))
              end
  end.

(** The [try ... except Exception] around the call of the tool: the
    response, the world after it, and the call if one was made. *)
Definition call_tool (tool_to_call : option string) (tool_input : string) (w : World)
  : string * World * list (string * string) :=
  match lookup_tool tool_to_call with
  | Raise e => ("Error executing tool: " ++ str_exn e, w, [])
  | Ok f =>
      let called := match tool_to_call with
                    | Some k => [(k, tool_input)]
                    | None => []
                    end in
      match f tool_input w with
      | (Ok tool_response, w') => (tool_response, w', called)
      | (Raise e, w') => ("Error executing tool: " ++ str_exn e, w', called)
      end
  end.

Definition append_message (m : Message) (st : State) : State :=
  {| message_history := List.app (message_history st) [m];
     world := world st;
     llm_calls := llm_calls st;
     tool_calls := tool_calls st |}.

Definition request_sent (st : State) : State :=
  {| message_history := message_history st;
     world := world st;
     llm_calls := List.app (llm_calls st) [message_history st];
     tool_calls := tool_calls st |}.

(** One turn of [while True], given what the provider does. *)
Definition loop_body (reply : llm_outcome) (st : State) : control :=
  let st := request_sent st in
  match reply with
  | LLMError _ => Return (Some "Error: Failed to get response from LLM") st
  | LLMReply parsed_result raw_result =>
      let st := append_message {| role := "assistant"; body := raw_result |} st in
      match parsed_result with
      | None =>
          Throw (mk_exn AttributeError "'NoneType' object has no attribute 'step'") st
      | Some parsed =>
          match step parsed with
          | START => Continue st
          | PLAN => Continue st
          | TOOL =>
              let tool_to_call := tool parsed in
              match input parsed with
              | None =>
                  Throw (mk_exn TypeError "object of type 'NoneType' has no len()") st
              | Some tool_input =>
                  let '(tool_response, w', called) :=
                    call_tool tool_to_call tool_input (world st) in
                  Continue
                    {| message_history :=
                         List.app (message_history st)
                           [observe_message tool_to_call tool_input tool_response];
                       world := w';
                       llm_calls := llm_calls st;
                       tool_calls := List.app (tool_calls st) called |}
              end
          | OUTPUT => Return (content parsed) st
          end
      end
  end.

(** The loop, on the replies of the provider in order; when they run
    out the loop is waiting for the next one. *)
Fixpoint agent_loop (script : list llm_outcome) (st : State) : outcome * State :=
  match script with
  | [] => (AwaitingModel, st)
  | reply :: rest =>
      match loop_body reply st with
      | Continue st' => agent_loop rest st'
      | Return v st' => (Returned v, st')
      | Throw e st' => (Raised e, st')
      end
  end.

Definition initial_state (user_query : string) (w : World) : State :=
  {| message_history :=
       [ {| role := "system"; body := Some SYSTEM_PROMPT |};
         {| role := "user"; body := Some user_query |} ];
     world := w;
     llm_calls := [];
     tool_calls := [] |}.

(** [run_agent] *)
Definition run_agent (user_query : string) (script : list llm_outcome) (w : World)
  : outcome * State :=
  agent_loop script (initial_state user_query w).

End Agent.

End Main.

(** ** main.py: the command line *)

Module Cli.
Import PyStr Py Os Tools Main.
#[local] Open Scope string_scope.

(** [user_input.lower() in ["quit", "exit", "q"]] *)
Definition quit_words : list string := ["quit"; "exit"; "q"].

Definition is_quit (user_input : string) : bool :=
  existsb (String.eqb (lower user_input)) quit_words.

(** How [main] stops: it prints Goodbye and breaks, or an exception leaves
    it ([input] at the end of the input, or a run that raises), or the run
    in progress is waiting for the provider. *)
Inductive session_end : Type :=
| Goodbye
| Crashed (e : exn)
| Waiting.

(** [input] at the end of the standard input. *)
Definition end_of_input : exn := mk_exn OtherException "EOF when reading a line".

(** One run of the agent made by [main]: the query and how the run ended. *)
Definition agent_run : Type := (string * (outcome * State))%type.

Section Session.
Variable subprocess_run : string -> World -> result CompletedProcess * World.
Variable SYSTEM_PROMPT : string.

(** [main]: the lines of the standard input, each with the replies the
    provider gives if the line becomes a query; the result is the runs
    made, the world at the end and how the session stopped. *)
Fixpoint main (lines : list (string * list llm_outcome)) (w : World)
  : list agent_run * World * session_end :=
  match lines with
  | [] => ([], w, Crashed end_of_input)
  | (line, script) :: rest =>
      let user_input := strip line in
      if is_quit user_input then ([], w, Goodbye)
      else if is_empty user_input then main rest w
      else
        let run := run_agent subprocess_run SYSTEM_PROMPT user_input script w in
        match fst run with
        | Returned _ =>
            let '(runs, w', stop) := main rest (world (snd run)) in
            ((user_input, run) :: runs, w', stop)
        | Raised e => ([(user_input, run)], world (snd run), Crashed e)
        | AwaitingModel => ([(user_input, run)], world (snd run), Waiting)
        end
  end.

End Session.

End Cli.


(** ** The properties, as definitions *)

Module Props.
Import PyStr Py Os Tools Main.
#[local] Open Scope string_scope.

(** [keyword] occurs in [command] up to the case of the letters. *)
Definition occurs_ignoring_case (keyword command : string) : Prop :=
  exists before middle after,
    command = before ++ middle ++ after /\ lower middle = lower keyword.

(** The entries of the walk of [search_code] from [directory_path]. *)
Definition walk_of (directory_path : string) (w : World) : list (list string * node) :=
  rglob_all w (mkPath directory_path).

(** What the loop of [search_code] has found when it ends. *)
Definition found (pattern directory_path file_extension : string) (w : World)
  : list string * nat :=
  fold_left (scan_entry pattern file_extension) (walk_of directory_path w) ([], 0).

(** An entry that is read: a readable file whose own name does not start
    with a dot and ends with the extension asked for. *)
Definition scanned (file_extension : string) (entry : list string * node) : bool :=
  negb (node_is_dir (snd entry))
  && negb (startswith "." (name (fst entry)))
  && (is_empty file_extension || endswith file_extension (name (fst entry)))
  && match node_read (snd entry) with Done _ => true | Fail _ => false end.

(** The match lines of one entry. *)
Definition entry_matches (pattern file_extension : string) (entry : list string * node)
  : list string :=
  if scanned file_extension entry
  then match node_read (snd entry) with
       | Done d => scan_lines pattern (fst entry) 1 (lines (universal_newlines d))
       | Fail _ => []
       end
  else [].

(** The name of the entry starts with a dot. *)
Definition own_name_hidden (entry : list string * node) : bool :=
  startswith "." (name (fst entry)).

(** Some part of the path of the entry below the root of the search, its own
    name included, starts with a dot. *)
Definition path_hidden (entry : list string * node) : bool :=
  existsb (startswith ".") (fst entry).

(** The plain parts of a path: none is [..]. *)
Definition plain (ps : list string) : Prop := Forall (fun p => p <> "..") ps.

(** Where the resolution of a path starts. *)
Definition start (w : World) (anch : bool) : list string :=
  if anch then [] else cwd w.


Definition assistant (raw : option string) : Message :=
  {| role := "assistant"; body := raw |}.

Definition control_state (c : control) : State :=
  match c with
  | Continue st => st
  | Return _ st => st
  | Throw _ st => st
  end.

Definition is_tool (parsed : option AgentResponse) : bool :=
  match parsed with
  | Some p => match step p with TOOL => true | _ => false end
  | None => false
  end.


(** The order [sorted] puts the children in. *)
Definition by_name (x y : string * node) : Prop := String.leb (fst x) (fst y) = true.

(** C3 as the specification states it: an entry of the walk with a dotted
    name anywhere on its path adds nothing to what the loop has found. *)
Definition hidden_paths_skipped : Prop :=
  forall pattern directory_path file_extension w entry st,
    In entry (walk_of directory_path w) ->
    path_hidden entry = true ->
    scan_entry pattern file_extension st entry = st.


Definition is_tool_reply (reply : llm_outcome) : bool :=
  match reply with
  | LLMError _ => false
  | LLMReply parsed _ => is_tool parsed
  end.

(** C10 as the specification states it: a turn of the loop appends one
    assistant message, and after it one user message exactly when the step
    is TOOL. *)
Definition grows_as_stated (reply : llm_outcome) (before after : list Message) : Prop :=
  exists raw,
    (is_tool_reply reply = false /\ after = List.app before [assistant raw])
    \/ (is_tool_reply reply = true
        /\ exists observation,
             role observation = "user"
             /\ after = List.app before [assistant raw; observation]).

Definition every_turn_appends
           (subprocess_run : string -> World -> result CompletedProcess * World) : Prop :=
  forall reply st,
    grows_as_stated reply (message_history st)
      (message_history (control_state (loop_body subprocess_run reply st))).

(** A TOOL step carries its input as a string. *)
Definition well_formed (parsed : option AgentResponse) : Prop :=
  forall p, parsed = Some p -> step p = TOOL -> input p <> None.

End Props.

(** ** Sample worlds and replies *)

Module Samples.
Import PyStr Py Os Tools Main.
#[local] Open Scope string_scope.

(** A shell that runs nothing and reports success. *)
Definition quiet_shell : string -> World -> result CompletedProcess * World :=
  fun _ w => (Ok {| stdout := EmptyString; stderr := EmptyString; returncode := 0%Z |}, w).

Definition in_home (entries : list (string * node)) : World :=
  {| root := Dir [("home", Dir entries)]; cwd := ["home"]; spawned := [] |}.

(** A project with a hidden directory, a hidden file and an unreadable file. *)
Definition project_entries : list (string * node) :=
  [("notes.txt", File true ("first line" ++ str1 LF ++ "second"));
   (".git", Dir [("config", File true "TODO")]);
   ("src", Dir [("a.py", File true "x = 1")]);
   (".env", File true "TODO");
   ("locked", File false "TODO")].

Definition project : World := in_home project_entries.

(** A directory with one file and one subdirectory. *)
Definition pair_entries : list (string * node) :=
  [("b", File true "four"); ("a", Dir [])].

Definition empty_home : World := in_home [].

(** A file of [n] lines that each say TODO. *)
Fixpoint todo_lines (n : nat) : string :=
  match n with
  | O => EmptyString
  | S k => "# TODO" ++ str1 LF ++ todo_lines k
  end.

Definition busy : World := in_home [("work.py", File true (todo_lines 53))].

Definition reply (s : StepType) (content tool input : option string) (raw : string)
  : llm_outcome :=
  LLMReply (Some {| step := s; content := content; tool := tool; input := input |})
           (Some raw).

Definition provider_down : llm_outcome :=
  LLMError (mk_exn OtherException "Connection error.").

End Samples.

(** ** Further definitions for the properties *)

Module More.
Import PyStr Py Os Tools Main Props.

(** The number of lines [search_code] reads from an entry. *)
Definition line_count (entry : list string * node) : nat :=
  match node_read (snd entry) with
  | Done d => List.length (lines (universal_newlines d))
  | Fail _ => 0
  end.

(** Every character is a printable character of ASCII. *)
Fixpoint plain_ascii (s : string) : bool :=
  match s with
  | EmptyString => true
  | String c r => (32 <=? ord c) && (ord c <=? 126) && plain_ascii r
  end.

(** A reply that is a START or a PLAN step. *)
Definition thinking (reply : llm_outcome) : Prop :=
  exists p raw, reply = LLMReply (Some p) raw /\ (step p = START \/ step p = PLAN).

End More.

(** ** Further samples *)

Module MoreSamples.
Import PyStr Py Os Tools Main.
#[local] Open Scope string_scope.

Definition src_entries : list (string * node) := [("a.py", File true "x = 1")].


Definition plan (raw : string) : llm_outcome :=
  Samples.reply PLAN (Some "thinking") None None raw.

Definition done (raw : string) : llm_outcome :=
  Samples.reply OUTPUT (Some "done") None None raw.

End MoreSamples.

(** ** Facts about the strings *)

Section StringFacts.
Import PyStr.
#[local] Open Scope string_scope.

Lemma append_empty_r (s : string) : s ++ EmptyString = s.
Proof. induction s as [|c s IH]; simpl; [reflexivity | now rewrite IH]. Qed.

Lemma append_assoc (a b c : string) : (a ++ b) ++ c = a ++ (b ++ c).
Proof. induction a as [|x a IH]; simpl; [reflexivity | now rewrite IH]. Qed.

Lemma prefix_append (p s : string) : String.prefix p (p ++ s) = true.
Proof.
  induction p as [|c p IH]; simpl.
  - now destruct s.
  - destruct (ascii_dec c c) as [_|ne]; [exact IH | now elim ne].
Qed.

Lemma lower_append (a b : string) : lower (a ++ b) = lower a ++ lower b.
Proof. induction a as [|c a IH]; simpl; [reflexivity | now rewrite IH]. Qed.

Lemma contains_unfold (sub s : string) :
  contains sub s =
  if String.prefix sub s then true
  else match s with
       | EmptyString => false
       | String _ r => contains sub r
       end.
Proof. destruct s; reflexivity. Qed.

Lemma contains_here (sub rest : string) : contains sub (sub ++ rest) = true.
Proof. rewrite contains_unfold, prefix_append. reflexivity. Qed.

Lemma contains_later (sub before s : string) :
  contains sub s = true -> contains sub (before ++ s) = true.
Proof.
  intros H. induction before as [|c before IH]; [exact H|].
  change (String c before ++ s) with (String c (before ++ s)).
  rewrite contains_unfold, IH.
  now destruct (String.prefix sub (String c (before ++ s))).
Qed.

Lemma contains_middle (sub before after : string) :
  contains sub (before ++ sub ++ after) = true.
Proof. apply contains_later, contains_here. Qed.

End StringFacts.

(** ** execute_command *)

Section ExecuteCommand.
Import PyStr Py Os Tools Props.
#[local] Open Scope string_scope.
Variable subprocess_run : string -> World -> result CompletedProcess * World.

Lemma keywords_lower_case (keyword : string) :
  In keyword dangerous_keywords -> lower keyword = keyword.
Proof.
  unfold dangerous_keywords. simpl.
  intros [E|[E|[E|[E|[E|[]]]]]]; subst keyword; reflexivity.
Qed.

Lemma blocked_when_occurs (keyword command : string) :
  In keyword dangerous_keywords -> occurs_ignoring_case keyword command ->
  blocked command = true.
Proof.
  intros Hin (before & middle & after & -> & Hmid).
  unfold blocked. apply existsb_exists. exists keyword. split; [exact Hin|].
  rewrite !lower_append, Hmid, (keywords_lower_case _ Hin).
  apply contains_middle.
Qed.

(** C5. A command that contains one of the five denylist keywords, whatever
    the case of its letters, is answered with the blocked-for-safety error:
    the shell is not called, and the world, with its record of the commands
    handed to the shell, is as before. *)
Theorem denylisted_command_is_blocked (keyword command : string) (w : World) :
  In keyword dangerous_keywords ->
  occurs_ignoring_case keyword command ->
  execute_command subprocess_run command w
  = ("Error: Command blocked for safety reasons", w).
Proof.
  intros Hin Hocc. unfold execute_command.
  now rewrite (blocked_when_occurs keyword command Hin Hocc).
Qed.

End ExecuteCommand.

Lemma denylisted_command_is_blocked_witness :
  Tools.execute_command Samples.quiet_shell "echo ADD" Samples.empty_home
  = ("Error: Command blocked for safety reasons", Samples.empty_home).
Proof.
  apply (denylisted_command_is_blocked Samples.quiet_shell "dd").
  - simpl. auto.
  - exists "echo A", "DD", EmptyString. split; reflexivity.
Defined.

(** ** search_code on a path that is not a directory *)

Section SearchNonDirectory.
Import PyStr Py Os Tools Props.
#[local] Open Scope string_scope.

(** C9. When [directory_path] names something that exists and is not a
    directory, [search_code] returns no error: it reads no file and reports
    no match in 0 files. *)
Theorem search_code_on_a_file (pattern directory_path file_extension : string) (w : World) :
  exists_ w (mkPath directory_path) = true ->
  is_dir w (mkPath directory_path) = false ->
  walk_of directory_path w = []
  /\ found pattern directory_path file_extension w = ([], 0)
  /\ search_code pattern directory_path file_extension w
     = "No matches found for '" ++ pattern ++ "' in 0 files".
Proof.
  unfold search_code, search_code_try, found, walk_of, exists_, is_dir, rglob_all.
  destruct (stat w (mkPath directory_path)) as [[r d|es]|e]; simpl;
    intros Hex Hdir; try discriminate.
  repeat split.
Qed.

End SearchNonDirectory.

Lemma search_code_on_a_file_witness :
  Tools.search_code "TODO" "notes.txt" ".py" Samples.project
  = "No matches found for 'TODO' in 0 files".
Proof.
  apply (search_code_on_a_file "TODO" "notes.txt" ".py" Samples.project
           eq_refl eq_refl).
Defined.

Section NameOrderFacts.

Lemma string_leb_trans (a b c : string) :
  String.leb a b = true -> String.leb b c = true -> String.leb a c = true.
Proof.
  unfold String.leb. revert b c.
  induction a as [|x a IH]; intros [|y b] [|z c]; simpl; try congruence.
  specialize (IH b c). unfold Ascii.compare.
  destruct (N.compare_spec (N_of_ascii x) (N_of_ascii y)) as [Exy|Lxy|Gxy];
    destruct (N.compare_spec (N_of_ascii y) (N_of_ascii z)) as [Eyz|Lyz|Gyz];
    destruct (N.compare_spec (N_of_ascii x) (N_of_ascii z)) as [Exz|Lxz|Gxz];
    try congruence; try lia; auto.
Qed.

End NameOrderFacts.

(** ** list_files *)

Section ListFiles.
Import PyStr Py Os Tools Props.
#[local] Open Scope string_scope.

Lemma sorted_children (children : list (string * node)) :
  Permutation children (EntrySort.sort children)
  /\ StronglySorted by_name (EntrySort.sort children).
Proof.
  split; [apply EntrySort.Permuted_sort|].
  apply EntrySort.StronglySorted_sort.
  intros x y z. apply string_leb_trans.
Qed.

(** C7. [list_files] answers with an error when the path does not exist and
    when it is not a directory.  On a directory it lists the entries of that
    directory alone, in the order of their names, one per line, a directory
    as [[DIR]  name/] and a file as [[FILE] name (N bytes)] with its size in
    bytes; on a directory without entries it says that the directory is
    empty. *)
Theorem list_files_lists_the_children (directory_path : string) (w : World) :
  let path := mkPath directory_path in
  (exists_ w path = false ->
   list_files directory_path w
   = "Error: Directory '" ++ directory_path ++ "' does not exist")
  /\ (exists_ w path = true -> is_dir w path = false ->
      list_files directory_path w = "Error: '" ++ directory_path ++ "' is not a directory")
  /\ (stat w path = Done (Dir []) ->
      list_files directory_path w = "Directory '" ++ directory_path ++ "' is empty")
  /\ (forall children, stat w path = Done (Dir children) -> children <> [] ->
      exists items,
        Permutation children items
        /\ StronglySorted by_name items
        /\ list_files directory_path w = join (str1 LF) (map list_item items)
        /\ list_files directory_path w <> EmptyString)
  /\ (forall child entries, list_item (child, Dir entries) = "[DIR]  " ++ child ++ "/")
  /\ (forall child readable data,
      list_item (child, File readable data)
      = "[FILE] " ++ child ++ " (" ++ str_of_nat (utf8_len data) ++ " bytes)").
Proof.
  intros path. unfold list_files, list_files_try, exists_, is_dir, iterdir.
  fold path. repeat split.
  - destruct (stat w path); [discriminate | reflexivity].
  - destruct (stat w path) as [[r d|es]|e]; simpl; intros; try discriminate.
    reflexivity.
  - intros ->. reflexivity.
  - intros children -> Hne. simpl.
    destruct (sorted_children children) as [Hperm Hsorted].
    exists (EntrySort.sort children). split; [exact Hperm|]. split; [exact Hsorted|].
    destruct (EntrySort.sort children) as [|item items] eqn:E.
    + apply Permutation_sym, Permutation_nil in Hperm. contradiction.
    + simpl map. cbv iota. split; [reflexivity|].
      unfold join, list_item. simpl.
      destruct items; destruct (node_is_dir (snd item)); simpl; discriminate.
Qed.

End ListFiles.

Lemma list_files_lists_the_children_witness :
  Tools.list_files "missing" Samples.project = "Error: Directory 'missing' does not exist"
  /\ exists items,
      Permutation Samples.pair_entries items
      /\ StronglySorted Props.by_name items
      /\ Tools.list_files "." (Samples.in_home Samples.pair_entries)
         = PyStr.join (PyStr.str1 PyStr.LF) (map Tools.list_item items).
Proof.
  split.
  - apply (list_files_lists_the_children "missing" Samples.project). reflexivity.
  - destruct (proj1 (proj2 (proj2 (proj2
               (list_files_lists_the_children "."
                  (Samples.in_home Samples.pair_entries)))))
               Samples.pair_entries eq_refl)
      as (items & Hperm & Hsorted & Hlist & _); [discriminate|].
    exists items. repeat split; assumption.
Defined.

(** ** search_code *)

Section SearchCode.
Import PyStr Py Os Tools Props.
#[local] Open Scope string_scope.

(** An entry that is passed over leaves both components as they are. *)
Ltac passed_over := now rewrite app_nil_r, Nat.add_0_r.

Lemma scan_entry_adds (pattern file_extension : string)
      (st : list string * nat) (entry : list string * node) :
  scan_entry pattern file_extension st entry
  = (List.app (fst st) (entry_matches pattern file_extension entry),
     snd st + (if scanned file_extension entry then 1 else 0)).
Proof.
  destruct st as [matches count], entry as [rel n].
  unfold scan_entry, entry_matches, scanned. simpl fst. simpl snd.
  destruct (node_is_dir n); simpl; [passed_over|].
  destruct (startswith "." (name rel)); simpl; [passed_over|].
  destruct (is_empty file_extension); simpl.
  - destruct (node_read n); simpl; [now rewrite Nat.add_1_r | passed_over].
  - destruct (endswith file_extension (name rel)); simpl; [|passed_over].
    destruct (node_read n); simpl; [now rewrite Nat.add_1_r | passed_over].
Qed.

Lemma scan_walk (pattern file_extension : string) (entries : list (list string * node)) :
  forall st,
    fold_left (scan_entry pattern file_extension) entries st
    = (List.app (fst st) (flat_map (entry_matches pattern file_extension) entries),
       snd st + List.length (filter (scanned file_extension) entries)).
Proof.
  induction entries as [|entry entries IH]; intros st; simpl.
  - rewrite app_nil_r, Nat.add_0_r. now destruct st.
  - rewrite IH, scan_entry_adds. simpl fst. simpl snd.
    rewrite <- app_assoc. f_equal.
    destruct (scanned file_extension entry); simpl; lia.
Qed.

Lemma found_is (pattern directory_path file_extension : string) (w : World) :
  found pattern directory_path file_extension w
  = (flat_map (entry_matches pattern file_extension) (walk_of directory_path w),
     List.length (filter (scanned file_extension) (walk_of directory_path w))).
Proof. unfold found. now rewrite scan_walk. Qed.

Lemma search_code_is_report (pattern directory_path file_extension : string) (w : World) :
  exists_ w (mkPath directory_path) = true ->
  search_code pattern directory_path file_extension w
  = search_report pattern (found pattern directory_path file_extension w).
Proof.
  unfold search_code, search_code_try. intros ->. reflexivity.
Qed.

Lemma walk_needs_the_path (directory_path : string) (w : World) :
  walk_of directory_path w <> [] -> exists_ w (mkPath directory_path) = true.
Proof.
  unfold walk_of, rglob_all, exists_.
  destruct (stat w (mkPath directory_path)); [reflexivity | congruence].
Qed.

(** C6. With more than 50 match lines in all, the result of [search_code] is
    the first 50 of them, one per line, and then a line that tells how many
    more there are; with no match line the result tells how many files were
    read.  ([matches] and [read] are what the loop has in its two variables
    when it ends.) *)
Theorem search_code_truncates_and_counts
        (pattern directory_path file_extension : string) (w : World) :
  let matches :=
    flat_map (entry_matches pattern file_extension) (walk_of directory_path w) in
  let read := List.length (filter (scanned file_extension) (walk_of directory_path w)) in
  found pattern directory_path file_extension w = (matches, read)
  /\ (50 < List.length matches ->
      search_code pattern directory_path file_extension w
      = join (str1 LF) (firstn 50 matches) ++ str1 LF
        ++ "... (" ++ str_of_nat (List.length matches - 50) ++ " more matches)"
      /\ List.length (firstn 50 matches) = 50)
  /\ (exists_ w (mkPath directory_path) = true -> matches = [] ->
      search_code pattern directory_path file_extension w
      = "No matches found for '" ++ pattern ++ "' in " ++ str_of_nat read ++ " files").
Proof.
  intros matches read. split; [apply found_is|]. split.
  - intros Hmany.
    assert (Hex : exists_ w (mkPath directory_path) = true).
    { apply walk_needs_the_path. intros E. subst matches. rewrite E in Hmany.
      simpl in Hmany. lia. }
    rewrite (search_code_is_report _ _ _ _ Hex), found_is. fold matches.
    unfold search_report. split.
    + destruct matches as [|m ms] eqn:E; [simpl in Hmany; lia|].
      rewrite <- E in *. apply Nat.ltb_lt in Hmany. now rewrite Hmany.
    + rewrite length_firstn. lia.
  - intros Hex Hnone.
    rewrite (search_code_is_report _ _ _ _ Hex), found_is. fold matches read.
    now rewrite Hnone.
Qed.

(** C3, as amended.  [search_code] passes over every directory entry and
    every file whose own name starts with a dot: such an entry adds no match
    line and is not counted as read, and the search gives what it would give
    if those entries were not in the walk.  The names of the directories
    above a file are not looked at: a readable file whose own name has no
    leading dot and passes the extension filter is read and counted,
    whatever the directories [above] it are called. *)
Theorem search_code_skips_hidden_names
        (pattern directory_path file_extension : string) (w : World) :
  (forall entry st,
      node_is_dir (snd entry) = true \/ own_name_hidden entry = true ->
      scan_entry pattern file_extension st entry = st)
  /\ found pattern directory_path file_extension w
     = fold_left (scan_entry pattern file_extension)
         (filter (fun entry => negb (own_name_hidden entry)) (walk_of directory_path w))
         ([], 0)
  /\ (forall above file_name data st,
         startswith "." file_name = false ->
         is_empty file_extension || endswith file_extension file_name = true ->
         scan_entry pattern file_extension st
           (List.app above [file_name], File true data)
         = (List.app (fst st)
              (scan_lines pattern (List.app above [file_name]) 1
                 (lines (universal_newlines data))),
            S (snd st))).
Proof.
  split; [|split].
  - intros [rel n] st H. unfold scan_entry. unfold own_name_hidden in H. simpl in H.
    destruct H as [-> | ->]; [reflexivity | now rewrite orb_true_r].
  - unfold found. generalize (walk_of directory_path w) as entries.
    generalize (@nil string, 0) as st.
    intros st entries. revert st.
    induction entries as [|entry entries IH]; intros st; simpl; [reflexivity|].
    destruct (own_name_hidden entry) eqn:E; simpl.
    + replace (scan_entry pattern file_extension st entry) with st; [apply IH|].
      destruct entry as [rel n]. unfold scan_entry.
      unfold own_name_hidden in E. simpl in E. now rewrite E, orb_true_r.
    + apply IH.
  - intros above file_name data st Hname Hext. unfold scan_entry, name.
    rewrite last_last, Hname. simpl orb. cbv iota.
    destruct (is_empty file_extension); simpl in Hext |- *; [reflexivity|].
    now rewrite Hext.
Qed.

End SearchCode.

(** C3, as stated, fails: a file in a directory whose name starts with a dot
    is read, and its lines are matched. *)
Lemma hidden_directory_is_searched :
  ~ Props.hidden_paths_skipped
  /\ Tools.search_code "TODO" "." EmptyString Samples.project = ".git/config:1: TODO".
Proof.
  split; [|reflexivity].
  intros claim.
  specialize (claim "TODO" "." EmptyString Samples.project
                    ([".git"; "config"], Os.File true "TODO") ([], 0)).
  assert (H : Tools.scan_entry "TODO" EmptyString ([], 0)
                ([".git"; "config"], Os.File true "TODO") = ([], 0)).
  { apply claim; [|reflexivity]. vm_compute. auto 10. }
  vm_compute in H. discriminate H.
Qed.

Lemma search_code_truncates_and_counts_witness :
  Tools.search_code "todo" "." ".py" Samples.busy
  = (PyStr.join (PyStr.str1 PyStr.LF)
       (firstn 50 (flat_map (Props.entry_matches "todo" ".py")
                            (Props.walk_of "." Samples.busy)))
     ++ PyStr.str1 PyStr.LF ++ "... (3 more matches)")%string.
Proof.
  apply (proj1 (proj2 (search_code_truncates_and_counts "todo" "." ".py" Samples.busy))).
  vm_compute. lia.
Defined.

Lemma search_code_skips_hidden_names_witness :
  Tools.scan_entry "TODO" EmptyString ([], 0) ([".env"], Os.File true "TODO") = ([], 0).
Proof.
  apply (proj1 (search_code_skips_hidden_names "TODO" "." EmptyString Samples.project)).
  right. reflexivity.
Defined.

(** ** The registry *)

Section Registry.
Import PyStr Py Os Tools Main Props.
#[local] Open Scope string_scope.
Variable subprocess_run : string -> World -> result CompletedProcess * World.


Lemma split_go_cons (sep : string) (limit : option nat) (piece : string)
      (c : ascii) (r : string) :
  split_go sep limit 0 piece (String c r)
  = if match limit with Some 0 => false | _ => String.prefix sep (String c r) end
    then piece :: split_go sep (match limit with Some (S m) => Some m | l => l end)
                    (String.length sep - 1) EmptyString r
    else split_go sep limit 0 (piece ++ str1 c) r.
Proof. reflexivity. Qed.







End Registry.



(** ** The agent loop *)

Section AgentLoop.
Import PyStr Py Os Tools Main Props.
#[local] Open Scope string_scope.
Variable subprocess_run : string -> World -> result CompletedProcess * World.
Variable SYSTEM_PROMPT : string.

#[local] Abbreviation loop_body := (Main.loop_body subprocess_run).
#[local] Abbreviation agent_loop := (Main.agent_loop subprocess_run).
#[local] Abbreviation run_agent := (Main.run_agent subprocess_run SYSTEM_PROMPT).
#[local] Abbreviation call_tool := (Main.call_tool subprocess_run).



(** C1. On the replies Start, Plan, Tool(list_files, "."), Plan,
    Output("done"), whatever their other fields and raw texts, [run_agent]
    calls one tool, [list_files] on ".", appends one OBSERVE message, of
    role user, right after the assistant message of the Tool step, and
    returns "done"; each of the five requests to the provider carries the
    whole transcript of that moment. *)
Theorem scripted_run_returns_done
        (user_query : string) (w : World)
        (c1 c2 c3 c4 t1 t2 t4 t5 i1 i2 i4 i5 raw1 raw2 raw3 raw4 raw5 : option string) :
  let system := {| role := "system"; body := Some SYSTEM_PROMPT |} in
  let user := {| role := "user"; body := Some user_query |} in
  let observation := observe_message (Some "list_files") "." (list_files "." w) in
  let script :=
    [LLMReply (Some (mk_response START c1 t1 i1)) raw1;
     LLMReply (Some (mk_response PLAN c2 t2 i2)) raw2;
     LLMReply (Some (mk_response TOOL c3 (Some "list_files") (Some "."))) raw3;
     LLMReply (Some (mk_response PLAN c4 t4 i4)) raw4;
     LLMReply (Some (mk_response OUTPUT (Some "done") t5 i5)) raw5] in
  let (result, st) := run_agent user_query script w in
  result = Returned (Some "done")
  /\ tool_calls st = [("list_files", ".")]
  /\ message_history st
     = [system; user; assistant raw1; assistant raw2; assistant raw3; observation;
        assistant raw4; assistant raw5]
  /\ role observation = "user"
  /\ body observation
     = Some (json_dumps [("step", Some "OBSERVE"); ("tool", Some "list_files");
                         ("input", Some "."); ("output", Some (list_files "." w))])
  /\ llm_calls st
     = [[system; user];
        [system; user; assistant raw1];
        [system; user; assistant raw1; assistant raw2];
        [system; user; assistant raw1; assistant raw2; assistant raw3; observation];
        [system; user; assistant raw1; assistant raw2; assistant raw3; observation;
         assistant raw4]]
  /\ world st = w.
Proof. cbv zeta. repeat split. Qed.


Lemma turn_appends (reply : llm_outcome) (st : State) :
  exists added,
    message_history (control_state (loop_body reply st))
    = List.app (message_history st) added.
Proof.
  unfold Main.loop_body.
  destruct reply as [e|[p|] raw].
  - exists []. simpl. now rewrite app_nil_r.
  - destruct (step p); try (now exists [assistant raw]).
    destruct (input p) as [tool_input|]; [|now exists [assistant raw]].
    cbn [request_sent append_message world message_history llm_calls tool_calls].
    destruct (call_tool (tool p) tool_input (world st)) as [[resp w'] called].
    exists [assistant raw; observe_message (tool p) tool_input resp].
    simpl. now rewrite <- app_assoc.
  - now exists [assistant raw].
Qed.

Lemma run_appends (script : list llm_outcome) :
  forall st, exists added,
    message_history (snd (agent_loop script st)) = List.app (message_history st) added.
Proof.
  induction script as [|reply script IH]; intros st.
  - exists []. simpl. now rewrite app_nil_r.
  - cbn [Main.agent_loop].
    destruct (turn_appends reply st) as [added Hadded].
    destruct (loop_body reply st) as [st'|v st'|e st']; simpl in Hadded.
    + destruct (IH st') as [more Hmore]. exists (List.app added more).
      now rewrite Hmore, Hadded, app_assoc.
    + now exists added.
    + now exists added.
Qed.

(** C10, as amended.  The transcript only grows at its end.  A turn in which
    the provider gives a reply appends one assistant message, the raw reply,
    and after it one OBSERVE message of role user exactly when the step is
    TOOL (a TOOL step carrying its input as a string); a turn in which the
    call of the provider fails appends nothing and ends the run.  Through
    the whole run the first message is the system prompt and the second the
    query of the user. *)
Theorem transcript_is_append_only :
  (forall parsed raw st,
      well_formed parsed ->
      let after := message_history (control_state (loop_body (LLMReply parsed raw) st)) in
      (is_tool parsed = false
       /\ after = List.app (message_history st) [assistant raw])
      \/ (is_tool parsed = true
          /\ exists tool_to_call tool_input tool_response,
              after = List.app (message_history st)
                        [assistant raw;
                         observe_message tool_to_call tool_input tool_response]
              /\ role (observe_message tool_to_call tool_input tool_response) = "user"))
  /\ (forall e st,
         loop_body (LLMError e) st
         = Return (Some "Error: Failed to get response from LLM")
                  (request_sent st)
         /\ message_history (request_sent st) = message_history st)
  /\ (forall script st,
         exists added,
           message_history (snd (agent_loop script st))
           = List.app (message_history st) added)
  /\ (forall user_query script w,
         exists added,
           message_history (snd (run_agent user_query script w))
           = {| role := "system"; body := Some SYSTEM_PROMPT |}
             :: {| role := "user"; body := Some user_query |} :: added).
Proof.
  split; [|split; [|split]].
  - intros parsed raw st Hwf after. subst after. unfold Main.loop_body.
    destruct parsed as [p|]; [|left; now split].
    unfold is_tool.
    destruct (step p) eqn:Hstep; try (left; now split).
    right. split; [reflexivity|].
    destruct (input p) as [tool_input|] eqn:Hinput;
      [|now elim (Hwf p eq_refl Hstep)].
    cbn [request_sent append_message world message_history llm_calls tool_calls].
    destruct (call_tool (tool p) tool_input (world st)) as [[resp w'] called].
    exists (tool p), tool_input, resp. simpl. now rewrite <- app_assoc.
  - intros e st. split; reflexivity.
  - intros script st. apply run_appends.
  - intros user_query script w. unfold Main.run_agent.
    destruct (run_appends script (initial_state SYSTEM_PROMPT user_query w))
      as [added Hadded].
    exists added. exact Hadded.
Qed.

End AgentLoop.


Lemma transcript_is_append_only_witness :
  Main.message_history
    (Props.control_state
       (Main.loop_body Samples.quiet_shell
          (Samples.reply Main.PLAN (Some "thinking") None None "raw")
          (Main.initial_state "prompt" "clean up" Samples.project)))
  = [Main.mk_message "system" (Some "prompt"); Main.mk_message "user" (Some "clean up");
     Props.assistant (Some "raw")].
Proof.
  destruct (proj1 (transcript_is_append_only Samples.quiet_shell "prompt")
              (Some (Main.mk_response Main.PLAN (Some "thinking") None None))
              (Some "raw")
              (Main.initial_state "prompt" "clean up" Samples.project))
    as [[_ H]|[H _]].
  - intros p [= <-] Hstep. discriminate Hstep.
  - exact H.
  - discriminate H.
Defined.

(** C10, as stated, fails: the turn in which the call of the provider fails
    appends no assistant message. *)
Lemma failed_request_appends_nothing :
  ~ Props.every_turn_appends Samples.quiet_shell
  /\ Main.run_agent Samples.quiet_shell "prompt" "clean up"
       [Samples.provider_down] Samples.project
     = (Main.Returned (Some "Error: Failed to get response from LLM"),
        Main.request_sent (Main.initial_state "prompt" "clean up" Samples.project)).
Proof.
  split; [|reflexivity].
  intros claim.
  destruct (claim Samples.provider_down
                  (Main.initial_state "prompt" "clean up" Samples.project))
    as [raw [[_ H]|[H _]]].
  - discriminate H.
  - discriminate H.
Qed.

(** ** The file system *)

Section FileSystem.
Import PyStr Py Os Props.

Lemma assoc_upsert {A : Type} (k : string) (x : A) (es : list (string * A)) :
  assoc k (upsert k x es) = Some x.
Proof.
  induction es as [|[k' y] es IH]; simpl.
  - now rewrite String.eqb_refl.
  - destruct (String.eqb k' k) eqn:E; simpl.
    + now rewrite String.eqb_refl.
    + now rewrite E.
Qed.

Lemma get_app (loc more : list string) :
  forall n, get n (loc ++ more)
            = match get n loc with
              | Some m => get m more
              | None => None
              end.
Proof.
  induction loc as [|k loc IH]; intros n; simpl; [reflexivity|].
  destruct n as [r d|es]; [reflexivity|].
  destruct (assoc k es); [apply IH | reflexivity].
Qed.

Lemma get_under_dir (loc : list string) (k : string) (more : list string) (n m : node) :
  get n (loc ++ k :: more) = Some m -> exists es, get n loc = Some (Dir es).
Proof.
  rewrite get_app. destruct (get n loc) as [[r d|es]|]; simpl; try discriminate.
  intros _. now exists es.
Qed.

Lemma put_deeper (a : string) (rest : list string) (x : node)
      (es : list (string * node)) :
  rest <> [] ->
  put (Dir es) (a :: rest) x
  = match assoc a es with
    | Some c => match put c rest x with
                | Some c' => Some (Dir (upsert a c' es))
                | None => None
                end
    | None => None
    end.
Proof. destruct rest; [contradiction | reflexivity]. Qed.


Lemma walk_app (r : node) (ps qs : list string) :
  forall cur, walk r cur (ps ++ qs)
              = match walk r cur ps with
                | Done c => walk r c qs
                | Fail e => Fail e
                end.
Proof.
  induction ps as [|p ps IH]; intros cur; simpl; [reflexivity|].
  destruct (get r cur) as [[rd d|es]|]; try reflexivity. apply IH.
Qed.

Lemma enter_plain (cur : list string) (p : string) :
  p <> ".." -> enter cur p = cur ++ [p].
Proof.
  intros H. unfold enter. now destruct (String.eqb_spec p "..").
Qed.

Lemma walk_existing (r : node) (ps : list string) :
  forall cur n,
    plain ps -> get r (cur ++ ps) = Some n -> walk r cur ps = Done (cur ++ ps).
Proof.
  induction ps as [|p ps IH]; intros cur n Hplain Hget; simpl.
  - now rewrite app_nil_r.
  - inversion Hplain as [|? ? Hp Hps]; subst.
    destruct (get_under_dir _ _ _ _ _ Hget) as [es ->].
    rewrite (enter_plain _ _ Hp).
    replace (cur ++ p :: ps) with ((cur ++ [p]) ++ ps) in * by now rewrite <- app_assoc.
    now apply (IH _ n).
Qed.

Lemma walk_child (r : node) (ps : list string) (q : string) (cur : list string)
      (es : list (string * node)) :
  plain (ps ++ [q]) -> get r (cur ++ ps) = Some (Dir es) ->
  walk r cur (ps ++ [q]) = Done (cur ++ ps ++ [q]).
Proof.
  intros Hplain Hget. apply Forall_app in Hplain as [Hps Hq].
  rewrite walk_app, (walk_existing _ _ _ _ Hps Hget). simpl. rewrite Hget.
  inversion Hq; subst. rewrite enter_plain by assumption. now rewrite <- app_assoc.
Qed.






Lemma stat_existing (w : World) (anch : bool) (ps : list string) (n : node) :
  plain ps ->
  get (root w) (start w anch ++ ps) = Some n ->
  stat w (mk_path anch ps) = Done n.
Proof.
  intros Hplain Hget. unfold stat, resolve. simpl anchored. simpl parts.
  fold (start w anch).
  now rewrite (walk_existing _ _ _ _ Hplain Hget), Hget.
Qed.

Lemma os_mkdir_existing (w : World) (p : Path) (n : node) :
  stat w p = Done n -> os_mkdir w p = Fail EEXIST.
Proof.
  unfold stat, os_mkdir. destruct (resolve w p) as [loc|e]; [|discriminate].
  now destruct (get (root w) loc).
Qed.

Lemma mkdir_parents_unfold (exist_ok anch : bool) (rparts : list string) (w : World) :
  mkdir_parents exist_ok anch rparts w
  = let self := mk_path anch (rev rparts) in
    match os_mkdir w self with
    | Done w' => (None, w')
    | Fail ENOENT =>
        match rparts with
        | [] => (Some (os_error ENOENT self), w)
        | _ :: rparent =>
            match mkdir_parents true anch rparent w with
            | (Some e, w1) => (Some e, w1)
            | (None, w1) => mkdir_flat exist_ok self w1
            end
        end
    | Fail e => if exist_ok && is_dir w self then (None, w) else (Some (os_error e self), w)
    end.
Proof. destruct rparts; reflexivity. Qed.


End FileSystem.

(** ** write_file and read_file *)

Section RoundTrip.
Import PyStr Py Os Tools Props.






End RoundTrip.



(** ** More on read_file, create_directory and write_file *)

Section FilesAndDirectories.
Import PyStr Py Os Tools Props.


Lemma mkdir_existing (w : World) (p : Path) (entries : list (string * node)) :
  stat w p = Done (Dir entries) -> mkdir true true p w = (None, w).
Proof.
  intros Hstat. unfold mkdir. rewrite mkdir_parents_unfold. cbv zeta.
  rewrite rev_involutive.
  replace (mk_path (anchored p) (parts p)) with p by now destruct p.
  rewrite (os_mkdir_existing _ _ _ Hstat). unfold is_dir. now rewrite Hstat.
Qed.

Lemma path_eta (p : Path) : mk_path (anchored p) (parts p) = p.
Proof. now destruct p. Qed.

Lemma list_files_of_dir (directory_path : string) (w : World)
      (entries : list (string * node)) :
  stat w (mkPath directory_path) = Done (Dir entries) ->
  list_files directory_path w
  = match map list_item (EntrySort.sort entries) with
    | [] => ("Directory '" ++ directory_path ++ "' is empty")%string
    | items => join (str1 LF) items
    end.
Proof.
  intros Hstat. unfold list_files, list_files_try, exists_, is_dir, iterdir.
  rewrite Hstat. simpl. now destruct (map list_item (EntrySort.sort entries)).
Qed.


(** X3. [create_directory] on a path that exists changes nothing: it says that
    the directory exists, or, for a file, that the path is not a
    directory. *)
Theorem create_directory_on_existing
        (directory_path : string) (w : World) (n : node) :
  stat w (mkPath directory_path) = Done n ->
  create_directory directory_path w
  = ((if node_is_dir n
      then "Directory '" ++ directory_path ++ "' already exists"
      else "Error: '" ++ directory_path ++ "' exists but is not a directory")%string,
     w).
Proof.
  intros Hstat. unfold create_directory, create_directory_try, exists_, is_dir.
  rewrite Hstat. now destruct n.
Qed.





Lemma upsert_other {A : Type} (k k' : string) (x : A) (es : list (string * A)) :
  k' <> k -> assoc k' (upsert k x es) = assoc k' es.
Proof.
  intros Hne. induction es as [|[k0 y] es IH]; simpl.
  - destruct (String.eqb_spec k k'); [congruence | reflexivity].
  - destruct (String.eqb_spec k0 k) as [->|Hk0]; simpl.
    + destruct (String.eqb_spec k k'); [congruence | reflexivity].
    + destruct (String.eqb_spec k0 k'); [reflexivity | exact IH].
Qed.





Lemma put_leaves_files (loc : list string) (x : node) :
  forall n n' l r d,
    put n loc x = Some n' ->
    get n l = Some (File r d) ->
    (forall below, l <> loc ++ below) ->
    get n' l = Some (File r d).
Proof.
  induction loc as [|k rest IH]; intros n n' l r d Hput Hget Hapart.
  - now elim (Hapart l).
  - destruct n as [rn dn|es]; [discriminate|].
    destruct l as [|k' l']; [discriminate|].
    simpl in Hget.
    destruct (String.eqb_spec k k') as [<-|Hne].
    + destruct rest as [|k2 rest'].
      * now elim (Hapart l').
      * rewrite put_deeper in Hput by discriminate.
        destruct (assoc k es) as [c|] eqn:Hk; [|discriminate].
        destruct (put c (k2 :: rest') x) as [c'|] eqn:Hc; [|discriminate].
        injection Hput as <-. simpl. rewrite assoc_upsert.
        apply (IH c c' l' r d Hc Hget).
        intros below E. apply (Hapart below). simpl. now rewrite E.
    + assert (Hn' : exists y, n' = Dir (upsert k y es)).
      { destruct rest as [|k2 rest'].
        - simpl in Hput. injection Hput as <-. now exists x.
        - rewrite put_deeper in Hput by discriminate.
          destruct (assoc k es) as [c|]; [|discriminate].
          destruct (put c (k2 :: rest') x) as [c'|]; [|discriminate].
          injection Hput as <-. now exists c'. }
      destruct Hn' as [y ->]. simpl.
      rewrite upsert_other by congruence. exact Hget.
Qed.

Lemma open_write_puts (w w' : World) (p : Path) (content : string) :
  open_write w p content = Done w' ->
  exists loc x,
    resolve w p = Done loc
    /\ put (root w) loc x = Some (root w')
    /\ cwd w' = cwd w
    /\ (get (root w) loc = None \/ exists r d, get (root w) loc = Some (File r d)).
Proof.
  unfold open_write. destruct (resolve w p) as [loc|e]; [|discriminate].
  destruct (get (root w) loc) as [[r d|es]|] eqn:Hloc; try discriminate.
  - destruct (put (root w) loc (File r content)) as [t|] eqn:Hput; [|discriminate].
    intros [= <-]. exists loc, (File r content). repeat split; eauto.
  - destruct (put (root w) loc (File true content)) as [t|] eqn:Hput; [|discriminate].
    intros [= <-]. exists loc, (File true content). repeat split; eauto.
Qed.

(** X7. [write_file] in an existing directory leaves every other file alone:
    what [read_file] returns for another path of plain names that names a
    file is the same before and after, whether the write succeeds or not. *)
Theorem write_file_leaves_other_files
        (file_path content other_path : string) (w : World)
        (above : list string) (file_name : string)
        (entries : list (string * node)) (readable : bool) (data : string) :
  let path := mkPath file_path in
  let other := mkPath other_path in
  parts path = above ++ [file_name] ->
  plain (parts path) ->
  get (root w) (start w (anchored path) ++ above) = Some (Dir entries) ->
  plain (parts other) ->
  get (root w) (start w (anchored other) ++ parts other) = Some (File readable data) ->
  start w (anchored other) ++ parts other
  <> start w (anchored path) ++ above ++ [file_name] ->
  read_file other_path (snd (write_file file_path content w)) = read_file other_path w.
Proof.
  intros path other Hparts Hplain Hget Hoplain Hoget Hdiff.
  set (anch := anchored path) in *.
  assert (Hparent : parent path = mk_path anch above).
  { unfold parent. fold anch. now rewrite Hparts, removelast_last. }
  assert (Hself : path = mk_path anch (above ++ [file_name])).
  { rewrite <- Hparts. subst anch. symmetry. apply path_eta. }
  rewrite Hparts in Hplain.
  assert (Hplain' : plain above) by now apply Forall_app in Hplain as [H _].
  assert (Hdir : stat w (parent path) = Done (Dir entries)).
  { rewrite Hparent. now apply stat_existing. }
  assert (Hstat : stat w other = Done (File readable data)).
  { rewrite <- (path_eta other). now apply stat_existing. }
  unfold write_file, write_file_try. fold path.
  rewrite (mkdir_existing _ _ _ Hdir).
  destruct (open_write w path content) as [w'|e] eqn:Hwrite; [|reflexivity].
  simpl snd.
  destruct (open_write_puts _ _ _ _ Hwrite) as (loc & x & Hres & Hput & Hcwd & Hwas).
  assert (Hloc : loc = start w anch ++ above ++ [file_name]).
  { rewrite Hself in Hres. unfold resolve in Hres. simpl in Hres.
    fold (start w anch) in Hres.
    rewrite (walk_child _ _ _ _ _ Hplain Hget) in Hres. now injection Hres as <-. }
  assert (Hoget' : get (root w') (start w (anchored other) ++ parts other)
                   = Some (File readable data)).
  { apply (put_leaves_files _ _ _ _ _ _ _ Hput Hoget).
    intros below E. destruct below as [|b below].
    - apply Hdiff. now rewrite E, app_nil_r, Hloc.
    - rewrite E, get_app in Hoget.
      destruct Hwas as [Hnone|(r & d & Hfile)].
      + now rewrite Hnone in Hoget.
      + now rewrite Hfile in Hoget. }
  assert (Hstat' : stat w' other = Done (File readable data)).
  { rewrite <- (path_eta other). apply stat_existing; [exact Hoplain|].
    unfold start in *. now rewrite Hcwd. }
  unfold read_file, read_file_try, exists_, is_file, open_read.
  fold other. now rewrite Hstat, Hstat'.
Qed.

End FilesAndDirectories.

(** ** More on list_files *)

Section ListingOrder.
Import PyStr Py Os Tools Props.

Lemma same_name_same_entry (x y : string * node) (l : list (string * node)) :
  NoDup (map fst l) -> In x l -> In y l -> fst x = fst y -> x = y.
Proof.
  induction l as [|z l IH]; simpl; [contradiction|].
  intros Hnodup Hx Hy Hname. inversion Hnodup as [|? ? Hz Hl]; subst.
  destruct Hx as [->|Hx], Hy as [->|Hy]; auto.
  - elim Hz. rewrite Hname. now apply in_map.
  - elim Hz. rewrite <- Hname. now apply in_map.
Qed.

Lemma sorted_listing_unique (l1 : list (string * node)) :
  forall l2,
    StronglySorted by_name l1 -> StronglySorted by_name l2 ->
    Permutation l1 l2 -> NoDup (map fst l1) -> l1 = l2.
Proof.
  induction l1 as [|x l1 IH]; intros l2 S1 S2 Hperm Hnodup.
  - now apply Permutation_nil in Hperm.
  - destruct l2 as [|y l2]; [now apply Permutation_sym, Permutation_nil in Hperm|].
    inversion S1 as [|? ? S1' Hx]; inversion S2 as [|? ? S2' Hy]; subst.
    assert (Hxy : x = y).
    { assert (Hin_x : In x (y :: l2)) by (eapply Permutation_in; [exact Hperm | now left]).
      assert (Hin_y : In y (x :: l1))
        by (eapply Permutation_in; [apply Permutation_sym; exact Hperm | now left]).
      destruct Hin_x as [->|Hin_x]; [reflexivity|].
      destruct Hin_y as [->|Hin_y]; [reflexivity|].
      apply (same_name_same_entry x y (x :: l1) Hnodup); [now left | now right|].
      rewrite Forall_forall in Hx, Hy.
      apply String.leb_antisym; [apply (Hx _ Hin_y) | apply (Hy _ Hin_x)]. }
    subst y. f_equal. apply IH; try assumption.
    + now apply Permutation_cons_inv in Hperm.
    + simpl in Hnodup. now inversion Hnodup.
Qed.

(** X15. The listing does not depend on the order in which the system gives the
    entries of the directory: two directories with the same entries (no
    name twice) in any order are listed alike. *)
Theorem listing_ignores_directory_order
        (path1 path2 : string) (w1 w2 : World) (entries1 entries2 : list (string * node)) :
  stat w1 (mkPath path1) = Done (Dir entries1) ->
  stat w2 (mkPath path2) = Done (Dir entries2) ->
  Permutation entries1 entries2 ->
  NoDup (map fst entries1) ->
  entries1 <> [] ->
  list_files path1 w1 = list_files path2 w2.
Proof.
  intros H1 H2 Hperm Hnodup Hsome.
  rewrite (list_files_of_dir _ _ _ H1), (list_files_of_dir _ _ _ H2).
  assert (Hsame : EntrySort.sort entries1 = EntrySort.sort entries2).
  { destruct (sorted_children entries1) as [P1 S1].
    destruct (sorted_children entries2) as [P2 S2].
    apply sorted_listing_unique; try assumption.
    - eapply Permutation_trans; [apply Permutation_sym, P1|].
      eapply Permutation_trans; [exact Hperm | exact P2].
    - eapply Permutation_NoDup; [|exact Hnodup]. now apply Permutation_map. }
  rewrite Hsame.
  destruct (map list_item (EntrySort.sort entries2)) eqn:E; [|reflexivity].
  apply map_eq_nil in E. rewrite <- Hsame in E.
  destruct (sorted_children entries1) as [P1 _]. rewrite E in P1.
  apply Permutation_sym, Permutation_nil in P1. contradiction.
Qed.

End ListingOrder.

(** ** More on execute_command *)

Section Occurrences.
Import PyStr Py Os Tools Props.

Lemma prefix_splits (p s : string) :
  String.prefix p s = true -> exists rest, s = (p ++ rest)%string.
Proof.
  revert s. induction p as [|c p IH]; intros s.
  - intros _. now exists s.
  - destruct s as [|c' s]; simpl; [discriminate|].
    destruct (ascii_dec c c') as [<-|_]; [|discriminate].
    intros H. destruct (IH _ H) as [rest ->]. now exists rest.
Qed.

Lemma contains_splits (sub s : string) :
  contains sub s = true -> exists before after, s = (before ++ sub ++ after)%string.
Proof.
  induction s as [|c s IH]; rewrite contains_unfold.
  - destruct (String.prefix sub EmptyString) eqn:P; [|discriminate].
    intros _. destruct (prefix_splits _ _ P) as [rest E]. now exists EmptyString, rest.
  - destruct (String.prefix sub (String c s)) eqn:P.
    + intros _. destruct (prefix_splits _ _ P) as [rest E]. now exists EmptyString, rest.
    + intros H. destruct (IH H) as (before & after & ->).
      now exists (String c before), after.
Qed.

Lemma lower_splits (x y : string) :
  forall s, lower s = (x ++ y)%string ->
            exists a b, s = (a ++ b)%string /\ lower a = x /\ lower b = y.
Proof.
  induction x as [|c x IH]; intros s; simpl.
  - intros H. now exists EmptyString, s.
  - destruct s as [|c' s]; [discriminate|]. simpl. intros [= Hc Hs].
    destruct (IH _ Hs) as (a & b & -> & Ha & Hb).
    exists (String c' a), b. simpl. now rewrite Hc, Ha.
Qed.




End Occurrences.

Section Denylist.
Import PyStr Py Os Tools Props.
Variable subprocess_run : string -> World -> result CompletedProcess * World.

(** X8. The denylist is exact: a command is refused if and only if one of the
    five keywords occurs in it up to the case of the letters.  Every other
    command is handed to the shell, once, recorded as the last command
    spawned, and the world after the call is the one the shell leaves. *)
Theorem command_runs_unless_denylisted (command : string) (w : World) :
  (blocked command = true
   <-> exists keyword,
        In keyword dangerous_keywords /\ occurs_ignoring_case keyword command)
  /\ (blocked command = false ->
      snd (execute_command subprocess_run command w)
      = snd (subprocess_run command (record_spawn command w))
      /\ spawned (record_spawn command w) = spawned w ++ [command]
      /\ root (record_spawn command w) = root w).
Proof.
  split.
  - split.
    + unfold blocked. intros H. apply existsb_exists in H as (keyword & Hin & Hc).
      exists keyword. split; [exact Hin|].
      destruct (contains_splits _ _ Hc) as (x & y & Hlow).
      destruct (lower_splits _ _ _ Hlow) as (before & rest & -> & Hx & Hrest).
      destruct (lower_splits _ _ _ Hrest) as (middle & after & -> & Hm & Hy).
      exists before, middle, after. split; [reflexivity|].
      now rewrite Hm, (keywords_lower_case _ Hin).
    + intros (keyword & Hin & Hocc). now apply (blocked_when_occurs keyword).
  - intros Hfree. unfold execute_command. rewrite Hfree.
    destruct (subprocess_run command (record_spawn command w)) as [[res|e] w'];
      simpl; [|destruct (is_timeout e)]; repeat split.
Qed.

End Denylist.

(** ** More on search_code *)

Section SearchMore.
Import PyStr Py Os Tools Props More.

Lemma scan_lines_by_lower (p1 p2 : string) (rel : list string) (ls : list string) :
  lower p1 = lower p2 ->
  forall k, scan_lines p1 rel k ls = scan_lines p2 rel k ls.
Proof.
  intros E. induction ls as [|line ls IH]; intros k; simpl; [reflexivity|].
  now rewrite E, IH.
Qed.

Lemma entry_matches_by_lower (p1 p2 ext : string) (entry : list string * node) :
  lower p1 = lower p2 -> entry_matches p1 ext entry = entry_matches p2 ext entry.
Proof.
  intros E. unfold entry_matches.
  destruct (scanned ext entry); [|reflexivity].
  destruct (node_read (snd entry)); [|reflexivity].
  now apply scan_lines_by_lower.
Qed.

(** X10. The case of the letters of the pattern does not matter: two patterns
    that differ only in case find the same lines in the same files, and
    when there is a match [search_code] returns the same text for both. *)
Theorem pattern_case_is_ignored
        (p1 p2 directory_path file_extension : string) (w : World) :
  lower p1 = lower p2 ->
  found p1 directory_path file_extension w = found p2 directory_path file_extension w
  /\ (fst (found p1 directory_path file_extension w) <> [] ->
      search_code p1 directory_path file_extension w
      = search_code p2 directory_path file_extension w).
Proof.
  intros E.
  assert (Hfound : found p1 directory_path file_extension w
                   = found p2 directory_path file_extension w).
  { rewrite !found_is. f_equal.
    induction (walk_of directory_path w) as [|entry entries IH]; simpl; [reflexivity|].
    now rewrite IH, (entry_matches_by_lower p1 p2 _ _ E). }
  split; [exact Hfound|].
  intros Hsome. unfold search_code, search_code_try.
  destruct (exists_ w (mkPath directory_path)); simpl; [|reflexivity].
  fold (walk_of directory_path w).
  fold (found p1 directory_path file_extension w).
  fold (found p2 directory_path file_extension w).
  rewrite <- Hfound.
  destruct (found p1 directory_path file_extension w) as [[|m ms] count];
    [now elim Hsome | reflexivity].
Qed.

Lemma contains_empty (s : string) : contains EmptyString s = true.
Proof. rewrite contains_unfold. now destruct s. Qed.

Lemma scan_lines_empty_pattern (rel : list string) (ls : list string) :
  forall k, List.length (scan_lines EmptyString rel k ls) = List.length ls.
Proof.
  induction ls as [|line ls IH]; intros k; simpl; [reflexivity|].
  change (lower EmptyString) with EmptyString. rewrite contains_empty. simpl.
  now rewrite IH.
Qed.

(** X11. The empty pattern matches every line: the number of match lines is the
    number of lines of the files read. *)
Theorem empty_pattern_matches_every_line
        (directory_path file_extension : string) (w : World) :
  List.length (fst (found EmptyString directory_path file_extension w))
  = list_sum (map line_count
                (filter (scanned file_extension) (walk_of directory_path w))).
Proof.
  rewrite found_is. simpl fst.
  induction (walk_of directory_path w) as [|entry entries IH]; simpl; [reflexivity|].
  rewrite length_app, IH. unfold entry_matches, line_count.
  destruct (scanned file_extension entry); simpl; [|reflexivity].
  destruct (node_read (snd entry)); simpl; [|reflexivity].
  now rewrite scan_lines_empty_pattern.
Qed.



Lemma scanned_without_filter (file_extension : string) (entry : list string * node) :
  scanned file_extension entry = true -> scanned EmptyString entry = true.
Proof.
  unfold scanned. simpl is_empty. rewrite orb_true_l.
  destruct (negb (node_is_dir (snd entry))), (negb (startswith "." (name (fst entry))));
    simpl; try discriminate.
  now destruct (is_empty file_extension || endswith file_extension (name (fst entry))).
Qed.

(** X13. The extension filter only leaves files out: every line found with a
    filter is found without it, and no more files are read with it. *)
Theorem extension_filter_narrows
        (pattern directory_path file_extension m : string) (w : World) :
  (In m (fst (found pattern directory_path file_extension w)) ->
   In m (fst (found pattern directory_path EmptyString w)))
  /\ snd (found pattern directory_path file_extension w)
     <= snd (found pattern directory_path EmptyString w).
Proof.
  rewrite !found_is. simpl fst. simpl snd. split.
  - rewrite !in_flat_map. intros (entry & Hin & Hm). exists entry. split; [exact Hin|].
    unfold entry_matches in *.
    destruct (scanned file_extension entry) eqn:Hs; [|contradiction].
    now rewrite (scanned_without_filter _ _ Hs).
  - induction (walk_of directory_path w) as [|entry entries IH]; simpl; [lia|].
    destruct (scanned file_extension entry) eqn:Hs.
    + rewrite (scanned_without_filter _ _ Hs). simpl. lia.
    + destruct (scanned EmptyString entry); simpl; lia.
Qed.

(** X14. With 1 to 50 match lines in all [search_code] returns all of them, one
    per line, and nothing else; on a path that does not exist it returns an
    error and searches nothing. *)
Theorem search_code_small_results
        (pattern directory_path file_extension : string) (w : World) :
  let matches := fst (found pattern directory_path file_extension w) in
  (matches <> [] -> List.length matches <= 50 ->
   search_code pattern directory_path file_extension w = join (str1 LF) matches)
  /\ (exists_ w (mkPath directory_path) = false ->
      search_code pattern directory_path file_extension w
      = ("Error: Directory '" ++ directory_path ++ "' does not exist")%string
      /\ walk_of directory_path w = []).
Proof.
  intros matches. split.
  - intros Hsome Hfew.
    assert (Hex : exists_ w (mkPath directory_path) = true).
    { apply walk_needs_the_path. intros E. apply Hsome. subst matches.
      unfold found. now rewrite E. }
    rewrite (search_code_is_report _ _ _ _ Hex). subst matches.
    destruct (found pattern directory_path file_extension w) as [[|m ms] count];
      [now elim Hsome|].
    unfold search_report. simpl fst in Hfew.
    now replace (50 <? List.length (m :: ms)) with false
      by (symmetry; apply Nat.ltb_ge; exact Hfew).
  - intros Hno. unfold search_code, search_code_try, walk_of, rglob_all.
    rewrite Hno. simpl. split; [reflexivity|].
    unfold exists_ in Hno. now destruct (stat w (mkPath directory_path)).
Qed.

End SearchMore.

(** ** More on the registry *)

Section Unpacking.
Import PyStr Py Os Tools Main Props More.
Variable subprocess_run : string -> World -> result CompletedProcess * World.

Lemma no_bar_head (c : ascii) (s : string) :
  contains "|" (String c s) = false -> c <> "|"%char /\ contains "|" s = false.
Proof.
  rewrite contains_unfold.
  change (String.prefix "|" (String c s))
    with (if ascii_dec "|"%char c then String.prefix EmptyString s else false).
  destruct (ascii_dec "|"%char c) as [<-|Hne].
  - now destruct s.
  - intros H. split; [congruence | exact H].
Qed.

Lemma no_delimiter_at (c : ascii) (s : string) :
  c <> "|"%char -> String.prefix "|||" (String c s) = false.
Proof.
  intros Hne.
  change (String.prefix "|||" (String c s))
    with (if ascii_dec "|"%char c then String.prefix "||" s else false).
  destruct (ascii_dec "|"%char c); [congruence | reflexivity].
Qed.

Lemma split_limit_reached (sep : string) (s : string) :
  forall piece, split_go sep (Some 0) 0 piece s = [(piece ++ s)%string].
Proof.
  induction s as [|c s IH]; intros piece.
  - simpl. now rewrite append_empty_r.
  - rewrite split_go_cons. rewrite IH. unfold str1. now rewrite append_assoc.
Qed.

Lemma split_field (limit : option nat) (field rest : string) :
  contains "|" field = false ->
  limit <> Some 0 ->
  forall piece,
    split_go "|||" limit 0 piece (field ++ "|||" ++ rest)
    = (piece ++ field)%string
      :: split_go "|||" (match limit with Some (S m) => Some m | l => l end) 0
           EmptyString rest.
Proof.
  intros Hbar Hlimit. induction field as [|c field IH]; intros piece.
  - rewrite append_empty_r. simpl String.append. rewrite split_go_cons.
    change (String "|" (String "|" (String "|" rest))) with ("|||" ++ rest)%string.
    rewrite prefix_append.
    destruct limit as [[|m]|]; [congruence | reflexivity | reflexivity].
  - apply no_bar_head in Hbar as [Hc Hfield].
    change (String c field ++ "|||" ++ rest)%string
      with (String c (field ++ "|||" ++ rest)).
    rewrite split_go_cons, (no_delimiter_at _ _ Hc).
    replace (match limit with Some 0 => false | _ => false end) with false
      by now destruct limit as [[|m]|].
    rewrite (IH Hfield). unfold str1. now rewrite append_assoc.
Qed.

Lemma split_last_field (limit : option nat) (field : string) :
  contains "|" field = false ->
  forall piece, split_go "|||" limit 0 piece field = [(piece ++ field)%string].
Proof.
  intros Hbar. induction field as [|c field IH]; intros piece.
  - simpl. now rewrite append_empty_r.
  - apply no_bar_head in Hbar as [Hc Hfield].
    rewrite split_go_cons, (no_delimiter_at _ _ Hc).
    replace (match limit with Some 0 => false | _ => false end) with false
      by now destruct limit as [[|m]|].
    rewrite (IH Hfield). unfold str1. now rewrite append_assoc.
Qed.

(** X16. The entry of [write_file] cuts its input at the first delimiter only:
    for a path without a bar, all that follows the delimiter is the
    content, further delimiters included. *)
Theorem write_file_entry_cuts_once (file_path content : string) (w : World) :
  contains "|" file_path = false ->
  write_file_entry (file_path ++ "|||" ++ content)%string w
  = returns (write_file file_path content w).
Proof.
  intros Hbar. unfold write_file_entry, split.
  rewrite (split_field (Some 1) file_path content Hbar) by discriminate.
  now rewrite split_limit_reached.
Qed.

(** X17. The entry of [search_code] takes one, two or three fields: a missing
    directory is the current one and a missing extension is no filter. *)
Theorem search_code_entry_defaults
        (pattern directory_path file_extension : string) (w : World) :
  contains "|" pattern = false ->
  contains "|" directory_path = false ->
  contains "|" file_extension = false ->
  search_code_entry pattern w = (Ok (search_code pattern "." EmptyString w), w)
  /\ search_code_entry (pattern ++ "|||" ++ directory_path)%string w
     = (Ok (search_code pattern directory_path EmptyString w), w)
  /\ search_code_entry
       (pattern ++ "|||" ++ directory_path ++ "|||" ++ file_extension)%string w
     = (Ok (search_code pattern directory_path file_extension w), w).
Proof.
  intros Hp Hd He. unfold search_code_entry, split. repeat split.
  - now rewrite (split_last_field None pattern Hp).
  - rewrite (split_field None pattern _ Hp) by discriminate.
    now rewrite (split_last_field None directory_path Hd).
  - rewrite (split_field None pattern _ Hp) by discriminate.
    rewrite (split_field None directory_path _ Hd) by discriminate.
    now rewrite (split_last_field None file_extension He).
Qed.

Lemma plain_ascii_append (a b : string) :
  plain_ascii (a ++ b)%string = plain_ascii a && plain_ascii b.
Proof.
  induction a as [|c a IH]; simpl; [reflexivity|].
  now rewrite IH, andb_assoc.
Qed.

Lemma json_char_plain (c : ascii) : plain_ascii (json_char c) = true.
Proof. destruct c as [[] [] [] [] [] [] [] []]; vm_compute; reflexivity. Qed.

Lemma json_str_plain (s : string) : plain_ascii (json_str s) = true.
Proof.
  unfold json_str. rewrite !plain_ascii_append.
  assert (H : plain_ascii (json_body s) = true).
  { induction s as [|c s IH]; simpl; [reflexivity|].
    now rewrite plain_ascii_append, json_char_plain, IH. }
  now rewrite H.
Qed.

Lemma json_value_plain (v : option string) : plain_ascii (json_value v) = true.
Proof. destruct v; [apply json_str_plain | reflexivity]. Qed.

Lemma join_plain (sep : string) (l : list string) :
  plain_ascii sep = true -> Forall (fun s => plain_ascii s = true) l ->
  plain_ascii (join sep l) = true.
Proof.
  intros Hsep. unfold join. induction 1 as [|x l Hx Hl IH]; simpl; [reflexivity|].
  destruct l as [|y l]; [exact Hx|].
  now rewrite !plain_ascii_append, Hx, Hsep, IH.
Qed.

(** X18. Whatever a tool returns (line feeds, quotes, bytes above 127), the
    OBSERVE message that carries it to the provider is one line of printable
    ASCII. *)
Theorem observation_is_one_ascii_line
        (tool_to_call : option string) (tool_input tool_response : string) :
  exists text,
    body (observe_message tool_to_call tool_input tool_response) = Some text
    /\ plain_ascii text = true
    /\ contains (str1 LF) text = false.
Proof.
  eexists. split; [reflexivity|].
  assert (Hplain : plain_ascii (json_dumps (observe_dict tool_to_call tool_input tool_response))
                   = true).
  { unfold json_dumps. rewrite !plain_ascii_append. simpl plain_ascii at 1.
    rewrite join_plain; [reflexivity | reflexivity |].
    unfold observe_dict. repeat constructor; simpl fst; simpl snd;
      rewrite !plain_ascii_append, json_str_plain, json_value_plain; reflexivity. }
  split; [exact Hplain|].
  destruct (contains (str1 LF) _) eqn:Hc; [|reflexivity].
  destruct (contains_splits _ _ Hc) as (before & after & E).
  rewrite E, !plain_ascii_append in Hplain. simpl in Hplain.
  now rewrite andb_false_r in Hplain.
Qed.

End Unpacking.

(** ** More on the agent loop *)

Section LoopMore.
Import PyStr Py Os Tools Main Props More.
Variable subprocess_run : string -> World -> result CompletedProcess * World.
Variable SYSTEM_PROMPT : string.

#[local] Abbreviation loop_body := (Main.loop_body subprocess_run).
#[local] Abbreviation agent_loop := (Main.agent_loop subprocess_run).
#[local] Abbreviation call_tool := (Main.call_tool subprocess_run).


Lemma thinking_turn (reply : llm_outcome) (st : State) :
  thinking reply ->
  exists raw,
    loop_body reply st
    = Continue {| message_history := message_history st ++ [assistant raw];
                  world := world st;
                  llm_calls := llm_calls st ++ [message_history st];
                  tool_calls := tool_calls st |}.
Proof.
  intros (p & raw & -> & Hstep). exists raw. unfold Main.loop_body.
  destruct Hstep as [-> | ->]; reflexivity.
Qed.

(** X20. The loop has no bound on its turns and does not ask for an OUTPUT:
    however many START and PLAN replies come, in any order, it is still
    waiting for the provider after them, with one assistant message and one
    request more for each, no tool called and the world untouched. *)
Theorem thinking_never_ends_the_run (script : list llm_outcome) (st : State) :
  Forall thinking script ->
  exists st',
    agent_loop script st = (AwaitingModel, st')
    /\ List.length (message_history st')
       = List.length (message_history st) + List.length script
    /\ List.length (llm_calls st') = List.length (llm_calls st) + List.length script
    /\ tool_calls st' = tool_calls st
    /\ world st' = world st.
Proof.
  intros Hall. revert st. induction Hall as [|reply script Hreply _ IH]; intros st.
  - exists st. simpl. repeat split; lia.
  - destruct (thinking_turn reply st Hreply) as [raw Hturn].
    cbn [Main.agent_loop]. rewrite Hturn.
    destruct (IH {| message_history := message_history st ++ [assistant raw];
                    world := world st;
                    llm_calls := llm_calls st ++ [message_history st];
                    tool_calls := tool_calls st |})
      as (st' & Hrun & Hlen & Hcalls & Htools & Hworld).
    exists st'. simpl in *. rewrite !length_app in *. simpl in *.
    repeat split; try assumption; lia.
Qed.

Lemma call_tool_records (tool_to_call : option string) (tool_input : string) (w : World) :
  exists resp w' called,
    call_tool tool_to_call tool_input w = (resp, w', called)
    /\ (called = [] -> w' = w)
    /\ List.length called <= 1.
Proof.
  unfold Main.call_tool, lookup_tool.
  destruct tool_to_call as [k|]; [|repeat eexists; simpl; lia].
  destruct (assoc k (available_tools subprocess_run)) as [f|];
    [|repeat eexists; simpl; lia].
  destruct (f tool_input w) as [[resp|e] w'];
    repeat eexists; simpl; try discriminate; lia.
Qed.

Lemma turn_records (reply : llm_outcome) (st : State) :
  exists added called,
    message_history (control_state (loop_body reply st)) = message_history st ++ added
    /\ llm_calls (control_state (loop_body reply st))
       = llm_calls st ++ [message_history st]
    /\ tool_calls (control_state (loop_body reply st)) = tool_calls st ++ called
    /\ (called = [] -> world (control_state (loop_body reply st)) = world st).
Proof.
  unfold Main.loop_body.
  destruct reply as [e|[p|] raw].
  - exists [], []. simpl. now rewrite !app_nil_r.
  - destruct (step p);
      try (exists [assistant raw], []; simpl; now rewrite !app_nil_r).
    destruct (input p) as [tool_input|];
      [|exists [assistant raw], []; simpl; now rewrite !app_nil_r].
    cbn [request_sent append_message world message_history llm_calls tool_calls].
    destruct (call_tool_records (tool p) tool_input (world st))
      as (resp & w' & called & -> & Hworld & _).
    exists [assistant raw; observe_message (tool p) tool_input resp], called.
    simpl. now rewrite <- app_assoc.
  - exists [assistant raw], []. simpl. now rewrite !app_nil_r.
Qed.

Lemma run_records (script : list llm_outcome) :
  forall st,
    exists added called,
      message_history (snd (agent_loop script st)) = message_history st ++ added
      /\ tool_calls (snd (agent_loop script st)) = tool_calls st ++ called
      /\ (called = [] -> world (snd (agent_loop script st)) = world st).
Proof.
  induction script as [|reply script IH]; intros st.
  - exists [], []. simpl. now rewrite !app_nil_r.
  - cbn [Main.agent_loop].
    destruct (turn_records reply st) as (added & called & Hmh & _ & Htc & Hw).
    destruct (loop_body reply st) as [st'|v st'|e st']; simpl in *;
      try (now exists added, called).
    destruct (IH st') as (added' & called' & Hmh' & Htc' & Hw').
    exists (added ++ added'), (called ++ called').
    rewrite Hmh', Hmh, Htc', Htc, !app_assoc. repeat split.
    intros E. apply app_eq_nil in E as [E1 E2].
    now rewrite (Hw' E2), (Hw E1).
Qed.

(** X21. The world changes through tools only: a run that calls no tool of the
    registry leaves the world as it found it, whatever the replies were. *)
Theorem run_without_tool_calls_changes_nothing
        (user_query : string) (script : list llm_outcome) (w : World) :
  tool_calls (snd (run_agent subprocess_run SYSTEM_PROMPT user_query script w)) = [] ->
  world (snd (run_agent subprocess_run SYSTEM_PROMPT user_query script w)) = w.
Proof.
  unfold run_agent.
  destruct (run_records script (initial_state SYSTEM_PROMPT user_query w))
    as (added & called & _ & Htc & Hw).
  rewrite Htc. simpl. intros ->. now apply Hw.
Qed.

(** X22. Every request to the provider carries the transcript of its moment: it
    starts with the transcript the run began with and the final transcript
    starts with it; there is at most one request for each reply. *)
Theorem every_request_carries_the_transcript (script : list llm_outcome) (st : State) :
  exists sent,
    llm_calls (snd (agent_loop script st)) = llm_calls st ++ sent
    /\ Forall (fun transcript =>
                 exists before after,
                   transcript = message_history st ++ before
                   /\ message_history (snd (agent_loop script st)) = transcript ++ after)
              sent
    /\ List.length sent <= List.length script
    /\ (fst (agent_loop script st) = AwaitingModel ->
        List.length sent = List.length script).
Proof.
  revert st. induction script as [|reply script IH]; intros st.
  - exists []. simpl. rewrite app_nil_r. repeat split; auto.
  - cbn [Main.agent_loop].
    destruct (turn_records reply st) as (added & called & Hmh & Hcalls & _ & _).
    destruct (loop_body reply st) as [st'|v st'|e st']; simpl in *.
    + destruct (IH st') as (sent & Hsent & Hall & Hlen & Hwait).
      exists (message_history st :: sent).
      rewrite Hsent, Hcalls, <- app_assoc. split; [reflexivity|]. split; [|split].
      * constructor.
        -- exists [].
           destruct (run_appends subprocess_run script st') as [more Hmore].
           exists (added ++ more). rewrite app_nil_r. split; [reflexivity|].
           now rewrite Hmore, Hmh, app_assoc.
        -- eapply Forall_impl; [|exact Hall]. simpl.
           intros t (before & after & -> & Hfinal).
           exists (added ++ before), after. split; [|exact Hfinal].
           now rewrite Hmh, app_assoc.
      * simpl. lia.
      * intros Hw. simpl. now rewrite (Hwait Hw).
    + exists [message_history st]. rewrite Hcalls. repeat split; try (simpl; lia).
      * constructor; [|constructor]. exists [], added. now rewrite app_nil_r.
      * discriminate.
    + exists [message_history st]. rewrite Hcalls. repeat split; try (simpl; lia).
      * constructor; [|constructor]. exists [], added. now rewrite app_nil_r.
      * discriminate.
Qed.

(** X23. A reply the loop cannot use ends the run with an exception, after the
    assistant message is recorded and before any tool is called: a TOOL
    step without input raises [TypeError], a reply without a parsed step
    raises [AttributeError]. *)
Theorem malformed_reply_ends_the_run
        (parsed : AgentResponse) (raw : option string)
        (rest : list llm_outcome) (st : State) :
  (step parsed = TOOL -> input parsed = None ->
   exists st',
     agent_loop (LLMReply (Some parsed) raw :: rest) st
     = (Raised (mk_exn TypeError "object of type 'NoneType' has no len()"), st')
     /\ message_history st' = message_history st ++ [assistant raw]
     /\ tool_calls st' = tool_calls st
     /\ world st' = world st)
  /\ exists st',
      agent_loop (LLMReply None raw :: rest) st
      = (Raised (mk_exn AttributeError "'NoneType' object has no attribute 'step'"), st')
      /\ message_history st' = message_history st ++ [assistant raw]
      /\ tool_calls st' = tool_calls st
      /\ world st' = world st.
Proof.
  split.
  - intros Hstep Hinput. cbn [Main.agent_loop]. unfold Main.loop_body.
    rewrite Hstep, Hinput. eexists. repeat split.
  - cbn [Main.agent_loop]. unfold Main.loop_body. eexists. repeat split.
Qed.

End LoopMore.

(** ** More on the command line *)

Section CommandLine.
Import PyStr Py Os Tools Main Props Cli.
Variable subprocess_run : string -> World -> result CompletedProcess * World.
Variable SYSTEM_PROMPT : string.

#[local] Abbreviation main := (Cli.main subprocess_run SYSTEM_PROMPT).

Lemma lstrip_fixed (s : string) :
  match s with
  | EmptyString => True
  | String c _ => is_space c = false
  end ->
  lstrip s = s.
Proof. destruct s as [|c s]; simpl; [reflexivity|]. now intros ->. Qed.

Lemma lstrip_head (s : string) :
  match lstrip s with
  | EmptyString => True
  | String c _ => is_space c = false
  end.
Proof.
  induction s as [|c s IH]; simpl; [exact I|].
  destruct (is_space c) eqn:E; [exact IH | exact E].
Qed.

Lemma rstrip_twice (s : string) : rstrip (rstrip s) = rstrip s.
Proof.
  induction s as [|c s IH]; [reflexivity|].
  cbn [rstrip]. destruct (is_space c && is_empty (rstrip s)) eqn:E; [reflexivity|].
  cbn [rstrip]. now rewrite IH, E.
Qed.

Lemma rstrip_head (s : string) :
  match s with
  | EmptyString => True
  | String c _ => is_space c = false
  end ->
  match rstrip s with
  | EmptyString => True
  | String c _ => is_space c = false
  end.
Proof.
  destruct s as [|c s]; [auto|]. cbn [rstrip]. intros E. rewrite E. exact E.
Qed.

Lemma strip_twice (s : string) : strip (strip s) = strip s.
Proof.
  unfold strip.
  rewrite (lstrip_fixed (rstrip (lstrip s))).
  - apply rstrip_twice.
  - apply rstrip_head, lstrip_head.
Qed.

(** X24. What reaches [run_agent] from the command line: each query is a line of
    the input without the white space around it, is not empty and is not a
    quit word; each run starts from a new transcript of two messages, the
    system prompt and that query. *)
Theorem queries_are_stripped_lines (lines : list (string * list llm_outcome)) (w : World) :
  Forall (fun run : agent_run =>
            let query := fst run in
            (exists line script, In (line, script) lines /\ query = strip line)
            /\ query <> EmptyString
            /\ strip query = query
            /\ is_quit query = false
            /\ exists added,
                message_history (snd (snd run))
                = {| role := "system"; body := Some SYSTEM_PROMPT |}
                  :: {| role := "user"; body := Some query |} :: added)
         (fst (fst (main lines w))).
Proof.
  revert w. induction lines as [|[line script] rest IH]; intros w.
  - constructor.
  - cbn [Cli.main]. cbv zeta.
    assert (Hrest : forall w',
               Forall (fun run : agent_run =>
                         let query := fst run in
                         (exists line0 script0,
                             In (line0, script0) ((line, script) :: rest)
                             /\ query = strip line0)
                         /\ query <> EmptyString
                         /\ strip query = query
                         /\ is_quit query = false
                         /\ exists added,
                             message_history (snd (snd run))
                             = {| role := "system"; body := Some SYSTEM_PROMPT |}
                               :: {| role := "user"; body := Some query |} :: added)
                      (fst (fst (main rest w')))).
    { intros w'. eapply Forall_impl; [|apply IH]. simpl.
      intros run ((l0 & s0 & Hin & Hq) & H). split; [|exact H].
      exists l0, s0. split; [now right | exact Hq]. }
    destruct (is_quit (strip line)) eqn:Hquit; [constructor|].
    destruct (is_empty (strip line)) eqn:Hempty; [apply Hrest|].
    assert (Hhere :
              (exists line0 script0,
                  In (line0, script0) ((line, script) :: rest)
                  /\ strip line = strip line0)
              /\ strip line <> EmptyString
              /\ strip (strip line) = strip line
              /\ is_quit (strip line) = false
              /\ exists added,
                  message_history
                    (snd (run_agent subprocess_run SYSTEM_PROMPT (strip line) script w))
                  = {| role := "system"; body := Some SYSTEM_PROMPT |}
                    :: {| role := "user"; body := Some (strip line) |} :: added).
    { split; [exists line, script; split; [now left | reflexivity]|].
      split; [intros E; now rewrite E in Hempty|].
      split; [apply strip_twice|]. split; [exact Hquit|].
      apply (run_appends subprocess_run script
               (initial_state SYSTEM_PROMPT (strip line) w)). }
    destruct (fst (run_agent subprocess_run SYSTEM_PROMPT (strip line) script w)).
    + specialize (Hrest (world (snd (run_agent subprocess_run SYSTEM_PROMPT
                                       (strip line) script w)))).
      destruct (main rest _) as [[runs w'] stop]. simpl in *.
      constructor; [exact Hhere | exact Hrest].
    + constructor; [exact Hhere | constructor].
    + constructor; [exact Hhere | constructor].
Qed.


End CommandLine.

(** ** The further properties on samples *)

Lemma plain_parts (ps : list string) :
  forallb (fun p => negb (String.eqb p "..")) ps = true -> Props.plain ps.
Proof.
  intros H. apply Forall_forall. intros p Hin E. subst p.
  rewrite forallb_forall in H. now specialize (H _ Hin).
Qed.



Lemma create_directory_on_existing_witness :
  Tools.create_directory "notes.txt" Samples.project
  = ("Error: 'notes.txt' exists but is not a directory", Samples.project).
Proof.
  apply (create_directory_on_existing "notes.txt" Samples.project
           (Os.File true ("first line" ++ PyStr.str1 PyStr.LF ++ "second")%string)).
  reflexivity.
Defined.




Lemma write_file_leaves_other_files_witness :
  Tools.read_file "notes.txt" (snd (Tools.write_file "src/b.py" "y = 2" Samples.project))
  = Tools.read_file "notes.txt" Samples.project.
Proof.
  apply (write_file_leaves_other_files "src/b.py" "y = 2" "notes.txt" Samples.project
           ["src"] "b.py" MoreSamples.src_entries true
           ("first line" ++ PyStr.str1 PyStr.LF ++ "second")%string).
  - reflexivity.
  - apply plain_parts. reflexivity.
  - reflexivity.
  - apply plain_parts. reflexivity.
  - reflexivity.
  - discriminate.
Defined.

Lemma command_runs_unless_denylisted_witness :
  Os.spawned (snd (Tools.execute_command Samples.quiet_shell "ls -la" Samples.empty_home))
  = ["ls -la"].
Proof.
  destruct (proj2 (command_runs_unless_denylisted Samples.quiet_shell "ls -la"
                     Samples.empty_home) eq_refl) as (Hworld & _ & _).
  rewrite Hworld. reflexivity.
Defined.


Lemma pattern_case_is_ignored_witness :
  Tools.search_code "todo" "." EmptyString Samples.project
  = Tools.search_code "TODO" "." EmptyString Samples.project.
Proof.
  apply (pattern_case_is_ignored "todo" "TODO" "." EmptyString Samples.project).
  - reflexivity.
  - vm_compute. discriminate.
Defined.


Lemma extension_filter_narrows_witness :
  In "src/a.py:1: x = 1" (fst (Props.found "X" "." EmptyString Samples.project)).
Proof.
  apply (proj1 (extension_filter_narrows "X" "." ".py" "src/a.py:1: x = 1" Samples.project)).
  vm_compute. auto.
Defined.

Lemma search_code_small_results_witness :
  Tools.search_code "line" "." ".txt" Samples.project = "notes.txt:1: first line".
Proof.
  apply (proj1 (search_code_small_results "line" "." ".txt" Samples.project)).
  - vm_compute. discriminate.
  - vm_compute. lia.
Defined.

Lemma listing_ignores_directory_order_witness :
  Tools.list_files "." (Samples.in_home Samples.pair_entries)
  = Tools.list_files "." (Samples.in_home (rev Samples.pair_entries)).
Proof.
  apply (listing_ignores_directory_order "." "."
           (Samples.in_home Samples.pair_entries)
           (Samples.in_home (rev Samples.pair_entries))
           Samples.pair_entries (rev Samples.pair_entries)).
  - reflexivity.
  - reflexivity.
  - apply Permutation_rev.
  - repeat constructor; simpl; intuition discriminate.
  - discriminate.
Defined.

Lemma write_file_entry_cuts_once_witness :
  Main.write_file_entry "notes.txt|||a|||b" Samples.empty_home
  = Main.returns (Tools.write_file "notes.txt" "a|||b" Samples.empty_home).
Proof.
  apply (write_file_entry_cuts_once "notes.txt" "a|||b" Samples.empty_home).
  reflexivity.
Defined.

Lemma search_code_entry_defaults_witness :
  Main.search_code_entry "TODO" Samples.project
  = (Py.Ok (Tools.search_code "TODO" "." EmptyString Samples.project), Samples.project).
Proof.
  apply (search_code_entry_defaults "TODO" "src" ".py" Samples.project);
    reflexivity.
Defined.


Lemma thinking_never_ends_the_run_witness :
  exists st',
    Main.agent_loop Samples.quiet_shell [MoreSamples.plan "r1"; MoreSamples.plan "r2"]
      (Main.initial_state "prompt" "hello" Samples.project)
    = (Main.AwaitingModel, st')
    /\ List.length (Main.message_history st') = 4.
Proof.
  destruct (thinking_never_ends_the_run Samples.quiet_shell
              [MoreSamples.plan "r1"; MoreSamples.plan "r2"]
              (Main.initial_state "prompt" "hello" Samples.project))
    as (st' & Hrun & Hlen & _).
  - repeat constructor; eexists; eexists; (split; [reflexivity | now right]).
  - exists st'. split; [exact Hrun | exact Hlen].
Defined.

Lemma run_without_tool_calls_changes_nothing_witness :
  Main.world (snd (Main.run_agent Samples.quiet_shell "prompt" "hello"
                     [MoreSamples.plan "r1"; MoreSamples.done "r2"] Samples.project))
  = Samples.project.
Proof.
  apply (run_without_tool_calls_changes_nothing Samples.quiet_shell "prompt" "hello"
           [MoreSamples.plan "r1"; MoreSamples.done "r2"] Samples.project).
  reflexivity.
Defined.

Lemma every_request_carries_the_transcript_witness :
  exists sent,
    Main.llm_calls (snd (Main.agent_loop Samples.quiet_shell [MoreSamples.plan "r1"]
                           (Main.initial_state "prompt" "hello" Samples.project)))
    = sent
    /\ List.length sent = 1.
Proof.
  destruct (every_request_carries_the_transcript Samples.quiet_shell
              [MoreSamples.plan "r1"]
              (Main.initial_state "prompt" "hello" Samples.project))
    as (sent & Hsent & _ & _ & Hlen).
  exists sent. split; [exact Hsent | apply Hlen; reflexivity].
Defined.

Lemma malformed_reply_ends_the_run_witness :
  fst (Main.agent_loop Samples.quiet_shell
         [Samples.reply Main.TOOL None (Some "list_files") None "r1"; MoreSamples.done "r2"]
         (Main.initial_state "prompt" "hello" Samples.project))
  = Main.Raised (Py.mk_exn Py.TypeError "object of type 'NoneType' has no len()").
Proof.
  destruct (proj1 (malformed_reply_ends_the_run Samples.quiet_shell
                     (Main.mk_response Main.TOOL None (Some "list_files") None)
                     (Some "r1") [MoreSamples.done "r2"]
                     (Main.initial_state "prompt" "hello" Samples.project))
              eq_refl eq_refl)
    as (st' & Hrun & _).
  unfold Samples.reply. now rewrite Hrun.
Defined.
